(** * Resilient external-call orchestration: role predictor and aggregator

    A shallow embedding of [app/routes/role_predictor.py] and
    [app/routes/analyze_all.py], and the properties of their retry,
    fallback and merge logic.

    Conventions of the embedding:
    - a Python [str] is a [string] whose characters are the code points
      U+0000..U+00FF; [lower], [strip] and [in] follow Python on that range
      (code points above U+00FF are outside the model);
    - a JSON number (Python [int] or finite [float]) is a rational [Q];
      comparison of finite numbers is exact on both sides, so the order is
      the same; NaN and infinities are outside the model;
    - a Python [dict] with string keys is a [gmap string _] (the insertion
      order, which nothing here reads, is not kept);
    - [await] points are sequential: a coroutine is a computation in a
      monad of traces and exceptions, where the trace records every remote
      request, every sleep and every adapter call, in order;
    - exceptions are the subclasses of [Exception]; [BaseException]s that
      are not (cancellation, interrupts) are outside the model. *)

From stdpp Require Import gmap strings list fin_maps pretty.
From Stdlib Require Import Ascii QArith.

Set Warnings "-register-all".
Local Open Scope string_scope.
Local Open Scope list_scope.

(** ** Python strings *)

Module PyStr.

(** [c.isspace()] for a code point below U+0100. *)
Definition isspace (c : ascii) : bool :=
  let n := N_of_ascii c in
  ((9 <=? n) && (n <=? 13) || (28 <=? n) && (n <=? 32)
   || (n =? 133) || (n =? 160))%N.

(** [c.lower()] for a code point below U+0100: A-Z and the Latin-1
    capitals U+00C0..U+00DE, the multiplication sign U+00D7 apart. *)
Definition lower_char (c : ascii) : ascii :=
  let n := N_of_ascii c in
  if ((65 <=? n) && (n <=? 90)
      || (192 <=? n) && (n <=? 222) && negb (n =? 215))%N
  then ascii_of_N (n + 32) else c.

Fixpoint lower (s : string) : string :=
  match s with
  | "" => ""
  | String c s' => String (lower_char c) (lower s')
  end.

Fixpoint lstrip (s : string) : string :=
  match s with
  | "" => ""
  | String c s' => if isspace c then lstrip s' else s
  end.

Fixpoint rstrip (s : string) : string :=
  match s with
  | "" => ""
  | String c s' =>
      match rstrip s' with
      | "" => if isspace c then "" else String c ""
      | r => String c r
      end
  end.

Definition strip (s : string) : string := rstrip (lstrip s).

(** [sub in s] on strings. *)
Fixpoint contains (sub s : string) : bool :=
  String.prefix sub s
  || match s with
     | "" => false
     | String _ s' => contains sub s'
     end.

(** [s[:n]] *)
Definition slice_to (n : nat) (s : string) : string := String.substring 0 n s.

End PyStr.

(** ** Python values, exceptions and computations *)

(** What [json.loads] produces, and what the adapters hand around. *)
Inductive json : Type :=
  | JNull
  | JBool (b : bool)
  | JNum (q : Q)
  | JStr (s : string)
  | JArr (l : list json)
  | JObj (m : gmap string json).

(** [fastapi.HTTPException] and every other [Exception], by class name and
    message [str(e)]; the messages of the exceptions the runtime itself
    creates are abbreviated. *)
Inductive exn : Type :=
  | HTTPException (status_code : Z) (detail : string)
  | PyException (cls : string) (msg : string).

(** [str(e)]; Starlette prints an HTTPException as "<status>: <detail>". *)
Definition exn_str (e : exn) : string :=
  match e with
  | HTTPException status detail => pretty status +:+ ": " +:+ detail
  | PyException _ msg => msg
  end.

Definition isinstance_HTTPException (e : exn) : bool :=
  match e with
  | HTTPException _ _ => true
  | PyException _ _ => false
  end.

Inductive result (A : Type) : Type :=
  | Ok (a : A)
  | Raise (e : exn).
Arguments Ok {A} a.
Arguments Raise {A} e.

(** Truth value testing, [bool(v)]. *)
Definition truthy (v : json) : bool :=
  match v with
  | JNull => false
  | JBool b => b
  | JNum q => negb (Qeq_bool q 0)
  | JStr s => negb (String.eqb s "")
  | JArr l => negb (bool_decide (length l = 0%nat))
  | JObj m => negb (bool_decide (size m = 0%nat))
  end.

(** Truth value of an optional string ([None] or a [str]). *)
Definition truthy_str (o : option string) : bool :=
  match o with
  | None => false
  | Some s => negb (String.eqb s "")
  end.

(** [a or b] on optional strings. *)
Definition or_str (a b : option string) : option string :=
  if truthy_str a then a else b.

(** The parts of the Python runtime that are too wide to embed and that no
    property below depends on: [str(v)] of a value that is not a string,
    [float(s)] of a string ([None] when it raises ValueError), and [a > b]
    when the operands are not two numbers or two strings ([None] when it
    raises TypeError). *)
Record PyBuiltins : Type := {
  py_repr : json → string;
  py_float_of_str : string → option Q;
  py_gt_other : json → json → option bool;
}.

(** Computations: a trace of events [E] is threaded through, and a
    computation ends with a value or a raised exception. *)
Definition M (E A : Type) : Type := list E → result A * list E.

Definition ret {E A} (a : A) : M E A := λ tr, (Ok a, tr).
Definition raise {E A} (e : exn) : M E A := λ tr, (Raise e, tr).
Definition bind {E A B} (k : A → M E B) (m : M E A) : M E B :=
  λ tr, match m tr with
        | (Ok a, tr') => k a tr'
        | (Raise e, tr') => (Raise e, tr')
        end.

#[global] Instance M_ret {E} : MRet (M E) := λ A, ret.
#[global] Instance M_bind {E} : MBind (M E) := λ A B, bind.

Definition emit {E} (ev : E) : M E () := λ tr, (Ok (), tr ++ [ev]).
Definition lift {E A} (r : result A) : M E A := λ tr, (r, tr).

(** [try: m  except Exception as e: h e] *)
Definition try_except {E A} (m : M E A) (h : exn → M E A) : M E A :=
  λ tr, match m tr with
        | (Ok a, tr') => (Ok a, tr')
        | (Raise e, tr') => h e tr'
        end.

(** [try: m  except HTTPException: h] *)
Definition try_except_HTTPException {E A} (m : M E A) (h : M E A) : M E A :=
  λ tr, match m tr with
        | (Raise (HTTPException _ _), tr') => h tr'
        | other => other
        end.


(** ** app/routes/role_predictor.py *)

Module httpx.

(** What [client.post] is given. *)
Record Request : Type := {
  url : string;
  headers : gmap string string;
  json_payload : json;
  timeout : Q;
}.

(** What it answers: the status, the body as text, and the body as
    [res.json()] parses it ([None] when that raises). *)
Record Response : Type := {
  status_code : Z;
  text : string;
  json_body : option json;
}.

Inductive outcome : Type :=
  | Responds (res : Response)
  | Fails (e : exn).

End httpx.

(** What the predictor does to the outside world. *)
Inductive event : Type :=
  | Post (rq : httpx.Request)
  | Sleep (seconds : Q).

Definition is_post (ev : event) : bool :=
  match ev with
  | Post _ => true
  | Sleep _ => false
  end.

Definition posts (tr : list event) : nat := length (List.filter is_post tr).

Definition HUGGINGFACE_MODEL : string :=
  "bhadresh-savani/distilbert-base-uncased-emotion".
Definition HUGGINGFACE_API_URL : string :=
  "https://router.huggingface.co/hf-inference/models/" +:+ HUGGINGFACE_MODEL.

Definition ROLE_MAP_items : list (string * list string) := [
  ("technology", ["Software Engineer - Fresher"; "Full Stack Developer - Fresher"]);
  ("programming", ["Backend Developer - Fresher"]);
  ("creativity", ["UI/UX Designer - Fresher"]);
  ("analysis", ["Data Analyst - Fresher"]);
  ("learning", ["Machine Learning Intern"]);
  ("organization", ["Business Analyst - Fresher"]);
  ("responsibility", ["Cybersecurity Analyst - Fresher"])
].

(** The dict literal [ROLE_MAP = {...}]. *)
Definition ROLE_MAP : gmap string (list string) := list_to_map ROLE_MAP_items.

Record PredictRoleResponse : Type := {
  predicted_label : string;
  recommended_roles : list string;
  confidence : Q;
}.

Definition _map_label_to_roles (label : string) : list string :=
  let key := PyStr.strip (PyStr.lower label) in
  default [] (ROLE_MAP !! key).

(** [any(kw in lowered for kw in kws)] *)
Definition any_in (kws : list string) (lowered : string) : bool :=
  existsb (λ kw, PyStr.contains kw lowered) kws.

(** The [else] branch of [predict_role]: the label chosen from keywords. *)
Definition heuristic_label (text : string) : string :=
  let lowered := PyStr.lower text in
  if any_in ["react"; "angular"; "vue"; "frontend"] lowered then "technology"
  else if any_in ["python"; "java"; "node"; "backend"; "api"] lowered then "programming"
  else if any_in ["ui"; "ux"; "figma"; "design"] lowered then "creativity"
  else if any_in ["data"; "analysis"; "excel"; "power bi"; "sql"] lowered then "analysis"
  else if any_in ["ml"; "machine learning"; "deep learning"; "tensorflow"; "pytorch"] lowered
       then "learning"
  else if any_in ["business"; "requirements"; "stakeholder"] lowered then "organization"
  else if any_in ["security"; "cyber"; "vulnerability"; "network"] lowered then "responsibility"
  else "technology".

(** The tail of [predict_role], from [roles = ...] on. *)
Definition respond (label : string) (score : Q) : PredictRoleResponse :=
  let roles := _map_label_to_roles label in
  let fresher_roles :=
    filter (λ r, PyStr.contains "Fresher" r || PyStr.contains "Intern" r) roles in
  {| predicted_label := label;
     recommended_roles := fresher_roles;
     confidence := score |}.

(** How one pass through the [for] body of [_call_hf_api] ends: with a
    [return], or at the bottom with [last_error] set. *)
Inductive attempt_end : Type :=
  | Return (data : list json)
  | Failed (last_error : exn).

Section RolePredictor.

Variable py : PyBuiltins.
(** The environment variable, read once at import. *)
Variable HUGGINGFACE_API_KEY : option string.
(** The inference service: what the [n]-th request sent (counting from
    0) is answered with. *)
Variable remote : nat → httpx.Request → httpx.outcome.

(** [str(v)] *)
Definition py_str (v : json) : string :=
  match v with
  | JStr s => s
  | _ => py_repr py v
  end.

(** [float(v)] *)
Definition py_float (v : json) : result Q :=
  match v with
  | JNum q => Ok q
  | JBool b => Ok (if b then 1 else 0)
  | JStr s =>
      match py_float_of_str py s with
      | Some q => Ok q
      | None => Raise (PyException "ValueError" "could not convert string to float")
      end
  | _ => Raise (PyException "TypeError" "float() argument must be a string or a real number")
  end.

Definition as_number (v : json) : option Q :=
  match v with
  | JNum q => Some q
  | JBool b => Some (if b then 1 else 0)
  | _ => None
  end.

(** [a > b] *)
Definition py_gt (a b : json) : result bool :=
  match as_number a, as_number b with
  | Some x, Some y => Ok (negb (Qle_bool x y))
  | _, _ =>
      match a, b with
      | JStr s, JStr t => Ok (String.ltb t s)
      | _, _ =>
          match py_gt_other py a b with
          | Some c => Ok c
          | None => Raise (PyException "TypeError" "'>' not supported")
          end
      end
  end.

(** [p.get(key, dflt)] *)
Definition py_get (p : json) (key : string) (dflt : json) : result json :=
  match p with
  | JObj m => Ok (default dflt (m !! key))
  | _ => Raise (PyException "AttributeError" "object has no attribute 'get'")
  end.

Definition score_key (p : json) : result json := py_get p "score" (JNum 0).

(** The loop of [max(iterable, key=...)]: the running maximum is replaced
    only by an item whose key is strictly greater. *)
Fixpoint max_loop (items : list json) (maxitem maxval : json) : result json :=
  match items with
  | [] => Ok maxitem
  | p :: rest =>
      match score_key p with
      | Raise e => Raise e
      | Ok val =>
          match py_gt val maxval with
          | Raise e => Raise e
          | Ok true => max_loop rest p val
          | Ok false => max_loop rest maxitem maxval
          end
      end
  end.

(** [max(predictions, key=lambda p: p.get("score", 0.0))] *)
Definition max_by_score (predictions : list json) : result json :=
  match predictions with
  | [] => Raise (PyException "ValueError" "max() arg is an empty sequence")
  | p :: rest =>
      match score_key p with
      | Raise e => Raise e
      | Ok val => max_loop rest p val
      end
  end.

Definition base_headers : gmap string string :=
  {[ "Content-Type" := "application/json" ]}.

Definition auth_headers : gmap string string :=
  if truthy_str HUGGINGFACE_API_KEY
  then <[ "Authorization" := "Bearer " +:+ default "" HUGGINGFACE_API_KEY ]> base_headers
  else base_headers.

(** [headers_to_use = auth_headers if HUGGINGFACE_API_KEY else base_headers] *)
Definition headers_to_use : gmap string string :=
  if truthy_str HUGGINGFACE_API_KEY then auth_headers else base_headers.

(** The request [client.post(HUGGINGFACE_API_URL, headers=hs, json=payload)]
    sends, on a client made with [timeout]. *)
Definition request (timeout : Q) (hs : gmap string string) (payload : json)
  : httpx.Request :=
  {| httpx.url := HUGGINGFACE_API_URL; httpx.headers := hs;
     httpx.json_payload := payload; httpx.timeout := timeout |}.

(** [await client.post(HUGGINGFACE_API_URL, headers=hs, json=payload)] *)
Definition post (timeout : Q) (hs : gmap string string) (payload : json)
  : M event httpx.Response :=
  λ tr,
    let rq := request timeout hs payload in
    match remote (posts tr) rq with
    | httpx.Responds res => (Ok res, tr ++ [Post rq])
    | httpx.Fails e => (Raise e, tr ++ [Post rq])
    end.

(** [await asyncio.sleep(seconds)] *)
Definition sleep (seconds : Q) : M event () := emit (Sleep seconds).

(** [res.json()] *)
Definition res_json (res : httpx.Response) : M event json :=
  match httpx.json_body res with
  | Some data => mret data
  | None => raise (PyException "JSONDecodeError" "Expecting value")
  end.

(** The body of the [try] in [_call_hf_api]. *)
Definition hf_try (timeout : Q) (payload : json) : M event attempt_end :=
  res ← post timeout headers_to_use payload;
  res ← (if (httpx.status_code res =? 403)%Z
            && PyStr.contains "does not have sufficient permissions" (httpx.text res)
         then post timeout base_headers payload
         else mret res);
  if (httpx.status_code res =? 503)%Z then
    mret (Failed (HTTPException 503 "Model is loading, please retry shortly."))
  else if (400 <=? httpx.status_code res)%Z then
    mret (Failed (HTTPException (httpx.status_code res)
                    ("HuggingFace error: " +:+ httpx.text res)))
  else
    data ← res_json res;
    match data with
    | JArr (JArr inner :: _) => mret (Return inner)
    | JArr l => mret (Return l)
    | _ => mret (Failed (HTTPException 500
                           ("Unexpected HuggingFace response: " +:+ py_str data)))
    end.

(** One pass through the [for] body up to the [except] clause. *)
Definition hf_attempt (timeout : Q) (payload : json) : M event attempt_end :=
  try_except (hf_try timeout payload) (λ e, mret (Failed e)).

(** The statements after the loop. *)
Definition raise_last_error (last_error : option exn) : M event (list json) :=
  match last_error with
  | Some e =>
      if isinstance_HTTPException e then raise e
      else raise (HTTPException 500 (exn_str e))
  | None => raise (HTTPException 500 "Unknown HF error")
  end.

(** [for attempt in attempts: ...] followed by the final [raise]. *)
Fixpoint hf_loop (timeout : Q) (payload : json) (max_retries : Z)
    (attempts : list Z) (last_error : option exn) : M event (list json) :=
  match attempts with
  | [] => raise_last_error last_error
  | attempt :: rest =>
      r ← hf_attempt timeout payload;
      match r with
      | Return data => mret data
      | Failed e =>
          (if (attempt <? max_retries)%Z then sleep 0.5 else mret ());;
          hf_loop timeout payload max_retries rest (Some e)
      end
  end.

(** [range(n)] *)
Definition range (n : Z) : list Z := Z.of_nat <$> seq 0 (Z.to_nat n).

(** [payload = {"inputs": text}] *)
Definition payload_of (text : string) : json := JObj {[ "inputs" := JStr text ]}.

Definition _call_hf_api (text : string) (max_retries : Z) (timeout : Q)
  : M event (list json) :=
  let payload := payload_of text in
  hf_loop timeout payload max_retries (range (max_retries + 1)) None.

(** The text the predictor works on: stripped, cut at 2000 characters. *)
Definition prepare (inputs : string) : string :=
  let text := PyStr.strip inputs in
  if (2000 <? String.length text)%nat then PyStr.slice_to 2000 text else text.

Definition predict_role (inputs : string) : M event PredictRoleResponse :=
  if String.eqb (PyStr.strip inputs) "" then
    raise (HTTPException 400 "inputs field must not be empty")
  else
    let text := prepare inputs in
    predictions ← try_except_HTTPException (_call_hf_api text 2 6) (mret []);
    match predictions with
    | _ :: _ =>
        top_pred ← lift (max_by_score predictions);
        label ← lift (py_get top_pred "label" (JStr "unknown"));
        score ← lift (py_get top_pred "score" (JNum 0));
        score ← lift (py_float score);
        mret (respond (py_str label) score)
    | [] =>
        mret (respond (heuristic_label text) 0.5)
    end.

End RolePredictor.

(** ** app/routes/analyze_all.py *)

(** The adapters the aggregator calls, as the trace records them. *)
Inductive call : Type :=
  | CallProcessResumeFile
  | CallExtractUsername (input : string)
  | CallGithubRepoCounts (username token : string)
  | CallPrMetrics (username token : string)
  | CallAnalyzeLeetcode (handle : string)
  | CallAnalyzeCodechef (handle : string).

(** What the route hands back: an explicit [JSONResponse], or the
    [results] dict (which the framework sends with status 200). *)
Inductive reply : Type :=
  | JSONResponse (content : json) (status_code : Z)
  | Returned (results : gmap string json).

(** [key in d] and [d.get(key)] *)
Definition key_in (key : string) (d : gmap string json) : bool :=
  match d !! key with
  | Some _ => true
  | None => false
  end.
Definition dict_get (d : gmap string json) (key : string) : json :=
  default JNull (d !! key).

(** [isinstance(v, dict) and v.get("error")], as a truth value. *)
Definition is_error_dict (v : json) : bool :=
  match v with
  | JObj d => truthy (dict_get d "error")
  | _ => false
  end.

Section AnalyzeAll.

(** The helpers and sibling routes are imported from other modules of
    the application; the aggregator depends on their call signatures
    only, so they are parameters here. Each one returns its payload or
    raises; the two GitHub helpers return dicts, which is what [in],
    [.get] and [**] are applied to. *)
Context {UploadFile : Type}.
Variable process_resume_file : UploadFile → result json.
Variable extract_username_from_input : string → result (option string).
Variable get_github_repo_counts : string → string → result (gmap string json).
Variable get_pr_metrics : string → string → result (gmap string json).
Variable GITHUB_TOKEN_ENV : option string.
Variable analyze_leetcode : string → result json.
Variable analyze_codechef : string → result json.

(** A call of an adapter: recorded, then answered. *)
Definition invoke {A} (c : call) (r : result A) : M call A :=
  emit c;; lift r.

(** The body of the [try] under [if github:]. Every path ends with its
    single assignment to [results], so an exception always leaves
    [results] as it was on entry. *)
Definition github_try (github : string) (token : option string)
    (results : gmap string json) : M call (gmap string json) :=
  username ← invoke (CallExtractUsername github) (extract_username_from_input github);
  if negb (truthy_str username) then
    mret (<[ "github_error" := JStr "Could not parse GitHub username from input" ]> results)
  else
    let username := default "" username in
    let token_to_use := or_str token GITHUB_TOKEN_ENV in
    if negb (truthy_str token_to_use) then
      mret (<[ "github_error" :=
                 JStr "GitHub token missing. Pass ?token=... or set GITHUB_TOKEN env variable" ]>
              results)
    else
      let token_to_use := default "" token_to_use in
      gql ← invoke (CallGithubRepoCounts username token_to_use)
              (get_github_repo_counts username token_to_use);
      if key_in "error_graphql" gql then
        mret (<[ "github_error" := dict_get gql "error_graphql" ]> results)
      else
        pr ← invoke (CallPrMetrics username token_to_use)
               (get_pr_metrics username token_to_use);
        if key_in "error_pr_api" pr then
          mret (<[ "github_error" := dict_get pr "error_pr_api" ]> results)
        else
          let combined := pr ∪ gql in
          mret (<[ "github" :=
                     JObj {[ "username" := JStr username;
                             "github_metrics" := JObj combined ]} ]> results).

Definition github_section (github token : option string)
    (results : gmap string json) : M call (gmap string json) :=
  if truthy_str github then
    try_except (github_try (default "" github) token results)
      (λ e, mret (<[ "github_error" := JStr (exn_str e) ]> results))
  else mret results.

Definition leetcode_section (leetcode : option string)
    (results : gmap string json) : M call (gmap string json) :=
  if truthy_str leetcode then
    try_except
      (lc_data ← invoke (CallAnalyzeLeetcode (default "" leetcode))
                   (analyze_leetcode (default "" leetcode));
       mret (<[ "leetcode" := lc_data ]> results))
      (λ e, mret (<[ "leetcode_error" := JStr (exn_str e) ]> results))
  else mret results.

Definition codechef_section (codechef : option string)
    (results : gmap string json) : M call (gmap string json) :=
  if truthy_str codechef then
    try_except
      (cc_data ← invoke (CallAnalyzeCodechef (default "" codechef))
                   (analyze_codechef (default "" codechef));
       mret (<[ "codechef" := cc_data ]> results))
      (λ e, mret (<[ "codechef_error" := JStr (exn_str e) ]> results))
  else mret results.

Definition analyze_all (file : UploadFile)
    (github leetcode codechef token : option string) : M call reply :=
  let results : gmap string json := ∅ in
  resume_result ← invoke CallProcessResumeFile (process_resume_file file);
  if is_error_dict resume_result then
    mret (JSONResponse resume_result 400)
  else
    let results := <[ "resume" := resume_result ]> results in
    results ← github_section github token results;
    results ← leetcode_section leetcode results;
    results ← codechef_section codechef results;
    mret (Returned results).

End AnalyzeAll.

(** ** Views of the code used in the statements *)

(** The test that triggers the anonymous re-issue: a 403 whose body has
    the provider's insufficient-permissions wording. *)
Definition insufficient_permissions (o : httpx.outcome) : bool :=
  match o with
  | httpx.Responds res =>
      (httpx.status_code res =? 403)%Z
      && PyStr.contains "does not have sufficient permissions" (httpx.text res)
  | httpx.Fails _ => false
  end.

(** How an attempt ends on the answer it finally looks at. *)
Definition verdict (py : PyBuiltins) (o : httpx.outcome) : attempt_end :=
  match o with
  | httpx.Fails e => Failed e
  | httpx.Responds res =>
      if (httpx.status_code res =? 503)%Z then
        Failed (HTTPException 503 "Model is loading, please retry shortly.")
      else if (400 <=? httpx.status_code res)%Z then
        Failed (HTTPException (httpx.status_code res)
                  ("HuggingFace error: " +:+ httpx.text res))
      else
        match httpx.json_body res with
        | None => Failed (PyException "JSONDecodeError" "Expecting value")
        | Some (JArr (JArr inner :: _)) => Return inner
        | Some (JArr l) => Return l
        | Some data =>
            Failed (HTTPException 500
                      ("Unexpected HuggingFace response: " +:+ py_str py data))
        end
  end.

(** [isinstance(data, list)] *)
Definition is_list (data : json) : bool :=
  match data with
  | JArr _ => true
  | _ => false
  end.

(** The requests of one attempt: the configured one, then the anonymous
    one when the attempt was downgraded. *)
Definition attempt_posts (key : option string) (timeout : Q) (payload : json)
    (downgraded : bool) : list event :=
  Post (request timeout (headers_to_use key) payload)
  :: (if downgraded then [Post (request timeout base_headers payload)] else []).

(** The response of the fallback path: the heuristic label, its entry-level
    roles, confidence 0.5. *)
Definition fallback_response (text : string) : PredictRoleResponse :=
  {| predicted_label := heuristic_label text;
     recommended_roles :=
       filter (λ r, PyStr.contains "Fresher" r || PyStr.contains "Intern" r)
         (_map_label_to_roles (heuristic_label text));
     confidence := 0.5 |}.

(** What the LeetCode and CodeChef blocks assign: the payload under
    [name], or the message of the exception under [name_error]. *)
Definition recorded (name : string) (r : result json)
    (results : gmap string json) : gmap string json :=
  match r with
  | Ok data => <[ name := data ]> results
  | Raise e => <[ name +:+ "_error" := JStr (exn_str e) ]> results
  end.

(** Is [c] a call of [get_pr_metrics]? *)
Definition is_pr_metrics_call (c : call) : bool :=
  match c with
  | CallPrMetrics _ _ => true
  | _ => false
  end.

(** What one optional source leaves behind. When its identifier is
    supplied (truthy), the adapter named by [first_call] has been called
    and exactly one of the keys [name] and [name_error] has been assigned;
    otherwise nothing has been called and nothing assigned. *)
Definition section_step (name : string) (supplied : bool) (first_call : call)
    (results results' : gmap string json) (tr tr' : list call) : Prop :=
  if supplied then
    (∃ calls, tr' = tr ++ first_call :: calls)
    ∧ ((∃ v, results' = <[ name := v ]> results)
       ∨ (∃ v, results' = <[ name +:+ "_error" := v ]> results))
  else results' = results ∧ tr' = tr.

(** ** The vocabulary of the specification *)





(** Exactly one of the two keys of a source is present. *)
Definition exactly_one_key (name : string) (results : gmap string json) : Prop :=
  (is_Some (results !! name) ∧ results !! (name +:+ "_error") = None)
  ∨ (results !! name = None ∧ is_Some (results !! (name +:+ "_error"))).

(** Neither key of a source is present. *)
Definition no_key (name : string) (results : gmap string json) : Prop :=
  results !! name = None ∧ results !! (name +:+ "_error") = None.

(** ** Concrete services and adapters for the examples *)

(** A runtime whose three wide builtins always take their failure case;
    the examples never reach them. *)
Definition py_plain : PyBuiltins :=
  {| py_repr := λ _, "<object>";
     py_float_of_str := λ _, None;
     py_gt_other := λ _ _, None |}.

Definition answer (status : Z) (body : string) (parsed : option json)
  : httpx.outcome :=
  httpx.Responds {| httpx.status_code := status; httpx.text := body;
                    httpx.json_body := parsed |}.

(** A service that is still loading its model, whatever it is sent. *)
Definition service_loading : nat → httpx.Request → httpx.outcome :=
  λ _ _, answer 503 "loading" None.

(** A service that answers 200 with the JSON object [{}]. *)
Definition service_object : nat → httpx.Request → httpx.outcome :=
  λ _ _, answer 200 "{}" (Some (JObj ∅)).

(** A service that refuses every request with the provider's
    insufficient-permissions answer. *)
Definition service_forbidden : nat → httpx.Request → httpx.outcome :=
  λ _ _, answer 403
           "This authentication method does not have sufficient permissions to call Inference Providers"
           None.

(** A service that answers 200 with an empty JSON list. *)
Definition service_empty_list : nat → httpx.Request → httpx.outcome :=
  λ _ _, answer 200 "[]" (Some (JArr [])).

(** The record [{"label": label, "score": score}]. *)
Definition record (label : string) (score : Q) : json :=
  JObj {[ "label" := JStr label; "score" := JNum score ]}.

(** [[[{"label":"organization","score":0.9},{"label":"technology","score":0.1}]]] *)
Definition example_body : json :=
  JArr [JArr [record "organization" 0.9; record "technology" 0.1]].

(** A service that answers 200 with [example_body]. *)
Definition service_example : nat → httpx.Request → httpx.outcome :=
  λ _ _, answer 200 "" (Some example_body).

Definition resume_parsed : string → result json :=
  λ _, Ok (JObj {[ "skills" := JArr [JStr "python"; JStr "sql"] ]}).

(** A username helper that takes the input as the username. *)
Definition username_as_given : string → result (option string) :=
  λ input, Ok (Some input).

(** GitHub helpers: repository counts that succeed, pull-request metrics
    that report an error. *)
Definition repo_counts_fine : string → string → result (gmap string json) :=
  λ _ _, Ok {[ "public_repos" := JNum 12 ]}.
Definition pr_metrics_limited : string → string → result (gmap string json) :=
  λ _ _, Ok {[ "error_pr_api" := JStr "API rate limit exceeded" ]}.

(** A LeetCode analyzer that raises, a CodeChef analyzer that answers. *)
Definition leetcode_unreachable : string → result json :=
  λ _, Raise (PyException "ConnectionError" "leetcode unreachable").
Definition codechef_fine : string → result json :=
  λ handle, Ok (JObj {[ "handle" := JStr handle; "rating" := JNum 1500 ]}).

(** ** app/helpers/guidance_helper.py and app/routes/guidance_routes.py *)

(** [s.replace(old, new)] scans from the left and never looks again at
    what it has replaced. [replace_from] walks the string with the number
    of characters of the current match still to be skipped. *)
Fixpoint replace_from (old new : string) (skip : nat) (s : string) : string :=
  match s with
  | "" => ""
  | String c s' =>
      match skip with
      | S k => replace_from old new k s'
      | O =>
          if String.prefix old s
          then new +:+ replace_from old new (String.length old - 1) s'
          else String c (replace_from old new 0 s')
      end
  end.

(** With an empty [old], Python puts [new] before every character and at
    the end. *)
Fixpoint intersperse (new s : string) : string :=
  match s with
  | "" => new
  | String c s' => new +:+ String c (intersperse new s')
  end.

Definition py_replace (old new s : string) : string :=
  match old with
  | "" => intersperse new s
  | _ => replace_from old new 0 s
  end.

(** The request of [chat.completions.create]. *)
Record ChatRequest : Type := {
  chat_model : string;
  chat_messages : list (string * string);
  chat_temperature : Q;
  chat_max_tokens : Z;
}.

(** What the guidance helper does to the outside world. *)
Inductive llm_event : Type :=
  | ChatCompletion (rq : ChatRequest).

(** [content.strip()], then the two [replace] and the second [strip]
    (lines 181-182), on a content that is a string. *)
Definition clean_content (content : string) : string :=
  let content := PyStr.strip content in
  PyStr.strip (py_replace "```" "" (py_replace "```json" "" content)).

(** [ensure_list(obj, key)] and [ensure_dict(obj, key)] *)
Definition ensure_list (obj : json) (key : string) : result json :=
  match py_get obj key JNull with
  | Raise e => Raise e
  | Ok val => Ok (if is_list val then val else JArr [])
  end.

Definition is_dict (v : json) : bool :=
  match v with
  | JObj _ => true
  | _ => false
  end.

Definition ensure_dict (obj : json) (key : string) : result json :=
  match py_get obj key JNull with
  | Raise e => Raise e
  | Ok val => Ok (if is_dict val then val else JObj ∅)
  end.

(** Sequencing of calls that return or raise, outside any trace. *)
#[global] Instance result_bind : MBind result :=
  λ A B k r, match r with
             | Ok a => k a
             | Raise e => Raise e
             end.

(** The keys [ensure_list] is applied to, in the order of lines 200-209,
    [career_clarity_summary] (a dict) apart. *)
Definition guidance_list_keys : list string :=
  ["technical_skills"; "missing_skills"; "learning_paths"; "project_ideas";
   "certificate_recommendations"; "role_matching"; "weak_skills";
   "recommended_tech_stacks"; "weekly_schedule"].

(** Lines 199-211: the result dict, key by key. *)
Definition normalize_guidance (data : json) : result (gmap string json) :=
  let result : gmap string json := ∅ in
  v ← ensure_list data "technical_skills";
  let result := <[ "technical_skills" := v ]> result in
  v ← ensure_list data "missing_skills";
  let result := <[ "missing_skills" := v ]> result in
  v ← ensure_list data "learning_paths";
  let result := <[ "learning_paths" := v ]> result in
  v ← ensure_list data "project_ideas";
  let result := <[ "project_ideas" := v ]> result in
  v ← ensure_list data "certificate_recommendations";
  let result := <[ "certificate_recommendations" := v ]> result in
  v ← ensure_list data "role_matching";
  let result := <[ "role_matching" := v ]> result in
  v ← ensure_list data "weak_skills";
  let result := <[ "weak_skills" := v ]> result in
  v ← ensure_list data "recommended_tech_stacks";
  let result := <[ "recommended_tech_stacks" := v ]> result in
  v ← ensure_dict data "career_clarity_summary";
  let result := <[ "career_clarity_summary" := v ]> result in
  v ← ensure_list data "weekly_schedule";
  let result := <[ "weekly_schedule" := v ]> result in
  Ok result.

Section Guidance.

(** [app.config.openrouter_client]: [None] when no key is configured,
    else a client whose [chat.completions.create] answers a request with
    the [message.content] of each choice ([None] for a choice without
    text), or raises. *)
Variable openrouter_client : option (ChatRequest → result (list (option string))).
(** [json.loads]; [None] when it raises. *)
Variable json_loads : string → option json.
(** The prompt of lines 58-165: a fixed text around
    [json.dumps(cleaned_resume)], kept as a function of [cleaned_resume]. *)
Variable prompt_of : json → string.

(** The request of lines 168-179. *)
Definition guidance_request (cleaned_resume : json) : ChatRequest :=
  {| chat_model := "gpt-4.1-mini";
     chat_messages :=
       [("system", "Return JSON only. No markdown, no commentary.");
        ("user", prompt_of cleaned_resume)];
     chat_temperature := 0.25;
     chat_max_tokens := 1500 |}.

(** [response.choices[0].message.content.strip()], up to the [strip]. *)
Definition first_content (choices : list (option string)) : result string :=
  match choices with
  | [] => Raise (PyException "IndexError" "list index out of range")
  | None :: _ =>
      Raise (PyException "AttributeError"
               "'NoneType' object has no attribute 'strip'")
  | Some content :: _ => Ok content
  end.

(** The body of the outer [try]. *)
Definition guidance_try (create : ChatRequest → result (list (option string)))
    (cleaned_resume : json) : M llm_event json :=
  let rq := guidance_request cleaned_resume in
  choices ← (emit (ChatCompletion rq);; lift (create rq));
  content ← lift (first_content choices);
  let content := clean_content content in
  match json_loads content with
  | None =>
      mret (JObj {[ "error" := JStr "Failed to parse guidance JSON";
                    "raw" := JStr content ]})
  | Some data =>
      result ← lift (normalize_guidance data);
      mret (JObj result)
  end.

Definition generate_guidance (resume_data : json) : M llm_event json :=
  match openrouter_client with
  | None => mret (JObj ∅)
  | Some create =>
      let cleaned_resume := if truthy resume_data then resume_data else JObj ∅ in
      try_except (guidance_try create cleaned_resume)
        (λ exc, mret (JObj {[ "error" :=
                                JStr ("Guidance LLM call failed: " +:+ exn_str exc) ]}))
  end.

(** [generate_guidance_endpoint(payload)], on [payload.resume_data]. *)
Definition generate_guidance_endpoint (resume_data : json) : M llm_event json :=
  if negb (truthy resume_data) then
    raise (HTTPException 400 "resume_data is required")
  else
    result ← generate_guidance resume_data;
    if negb (is_dict result) then
      raise (HTTPException 500 "Invalid guidance response")
    else
      mret (JObj {[ "guidance" := result ]}).

End Guidance.

(** ** Further views for the statements *)

(** What [ensure_list] and [ensure_dict] keep of [obj.get(key)]. *)
Definition list_or_empty (o : option json) : json :=
  match o with
  | Some (JArr l) => JArr l
  | _ => JArr []
  end.
Definition dict_or_empty (o : option json) : json :=
  match o with
  | Some (JObj m) => JObj m
  | _ => JObj ∅
  end.

(** The shape of a guidance: a list under each of the nine list keys, a
    dict under [career_clarity_summary], and no other key. *)
Definition guidance_shape (d : gmap string json) : Prop :=
  (∀ k, k ∈ guidance_list_keys → ∃ l, d !! k = Some (JArr l))
  ∧ (∃ m, d !! "career_clarity_summary" = Some (JObj m))
  ∧ (∀ k, k ∉ guidance_list_keys → k ≠ "career_clarity_summary" → d !! k = None).

(** The shape of an error payload: a message under [error], possibly the
    text that did not parse under [raw], and no other key. *)
Definition error_shape (d : gmap string json) : Prop :=
  (∃ msg, d !! "error" = Some (JStr msg))
  ∧ (∀ k, k ≠ "error" → k ≠ "raw" → d !! k = None).

(** A client that answers every request with one choice of text
    [content], and a parser that knows one text. *)
Definition client_says (content : string)
  : ChatRequest → result (list (option string)) :=
  λ _, Ok [Some content].
Definition loads_only (known : string) (value : json) : string → option json :=
  λ s, if String.eqb s known then Some value else None.

Definition sleeps (tr : list event) : nat :=
  length (List.filter (λ ev, negb (is_post ev)) tr).

(** The error [_call_hf_api] raises for a last error [e] (lines 103-105). *)
Definition surfaced (e : exn) : exn :=
  if isinstance_HTTPException e then e else HTTPException 500 (exn_str e).

(** The events [_call_hf_api] may add to the trace: the configured
    request, the anonymous request, and a sleep of 0.5. *)
Definition allowed_event (key : option string) (timeout : Q) (payload : json)
    (ev : event) : Prop :=
  ev = Post (request timeout (headers_to_use key) payload)
  ∨ ev = Post (request timeout base_headers payload)
  ∨ ev = Sleep 0.5.

(** The attempts after which the loop sleeps: those below [max_retries]. *)
Definition sleeping_attempts (max_retries : Z) (attempts : list Z) : nat :=
  length (List.filter (λ attempt, (attempt <? max_retries)%Z) attempts).


(** The keys the route can put into [results]. *)
Definition result_keys : gset string :=
  {[ "resume"; "github"; "github_error"; "leetcode"; "leetcode_error";
     "codechef"; "codechef_error" ]}.

(** Is [c] a call of one of the two GitHub metrics helpers? *)
Definition is_github_helper_call (c : call) : bool :=
  match c with
  | CallGithubRepoCounts _ _ | CallPrMetrics _ _ => true
  | _ => false
  end.

(** The calls of the LeetCode block and of the CodeChef block. *)
Definition later_calls (leetcode codechef : option string) : list call :=
  (if truthy_str leetcode then [CallAnalyzeLeetcode (default "" leetcode)] else [])
  ++ (if truthy_str codechef then [CallAnalyzeCodechef (default "" codechef)] else []).

(** Pull-request metrics that succeed, with one key that the repository
    counts have too. *)
Definition pr_metrics_fine : string → string → result (gmap string json) :=
  λ _ _, Ok {[ "merged_prs" := JNum 4; "public_repos" := JNum 13 ]}.

(** [n + 1] attempts that each leave the events [one], with a sleep of
    0.5 between one attempt and the next. *)
Fixpoint attempts_trace (one : list event) (n : nat) : list event :=
  match n with
  | O => one
  | S k => one ++ Sleep 0.5 :: attempts_trace one k
  end.

(** * Properties *)

(** ** Strings *)



(** ** The label-to-roles mapper *)

Lemma ROLE_MAP_keys_NoDup : NoDup ROLE_MAP_items.*1.
Proof. apply (bool_decide_unpack _). by vm_compute. Qed.

(** C9. A label that, lowercased and stripped, is a key of the table is
    mapped to exactly that key's role list, in the table's order; every
    other label is mapped to the empty list. The mapper is a total function:
    it has no other outcome. *)
Theorem map_label_to_roles_table (label : string) :
  let key := PyStr.strip (PyStr.lower label) in
  (∀ roles, (key, roles) ∈ ROLE_MAP_items → _map_label_to_roles label = roles)
  ∧ (key ∉ ROLE_MAP_items.*1 → _map_label_to_roles label = []).
Proof.
  intros key. unfold _map_label_to_roles, ROLE_MAP. fold key. split.
  - intros roles Hin.
    by rewrite (elem_of_list_to_map_1 _ _ _ ROLE_MAP_keys_NoDup Hin).
  - intros Hnot.
    by rewrite (not_elem_of_list_to_map_1 _ _ Hnot).
Qed.

Lemma map_label_to_roles_table_witness :
  _map_label_to_roles "  Organization " = ["Business Analyst - Fresher"]
  ∧ _map_label_to_roles "joy" = [].
Proof.
  split.
  - apply (proj1 (map_label_to_roles_table "  Organization ")).
    replace (PyStr.strip (PyStr.lower "  Organization ")) with "organization"
      by (by vm_compute).
    unfold ROLE_MAP_items. rewrite !elem_of_cons. do 5 right. by left.
  - apply (proj2 (map_label_to_roles_table "joy")).
    replace (PyStr.strip (PyStr.lower "joy")) with "joy" by (by vm_compute).
    unfold ROLE_MAP_items. cbn [fmap list_fmap fst].
    rewrite !elem_of_cons, elem_of_nil. by intros [|[|[|[|[|[|[|[]]]]]]]].
Defined.

(** ** The remote call client *)

Lemma posts_app (a b : list event) : posts (a ++ b) = (posts a + posts b)%nat.
Proof. unfold posts. by rewrite List.filter_app, length_app. Qed.

Lemma posts_snoc_post (tr : list event) (rq : httpx.Request) :
  posts (tr ++ [Post rq]) = S (posts tr).
Proof. rewrite posts_app. cbn. lia. Qed.

Lemma posts_snoc_sleep (tr : list event) (d : Q) :
  posts (tr ++ [Sleep d]) = posts tr.
Proof. rewrite posts_app. cbn. lia. Qed.

Section RemoteCallClient.

Variable py : PyBuiltins.
Variable key : option string.
Variable remote : nat → httpx.Request → httpx.outcome.

(** One attempt, in closed form: it never raises; it sends the request
    with the configured headers, sends the anonymous one after it exactly
    when the first answer has the insufficient-permissions signature, and
    ends on the verdict of the last answer. *)
Lemma hf_attempt_eq (timeout : Q) (payload : json) (tr : list event) :
  hf_attempt py key remote timeout payload tr =
  let rq := request timeout (headers_to_use key) payload in
  let anon := request timeout base_headers payload in
  if insufficient_permissions (remote (posts tr) rq)
  then (Ok (verdict py (remote (S (posts tr)) anon)), tr ++ [Post rq; Post anon])
  else (Ok (verdict py (remote (posts tr) rq)), tr ++ [Post rq]).
Proof.
  unfold hf_attempt, try_except, hf_try, mbind, M_bind, bind, post.
  unfold mret, M_ret, ret, raise, headers_to_use. cbv zeta.
  destruct (remote (posts tr) _) as [res|e] eqn:E1; cbn [insufficient_permissions].
  2: { reflexivity. }
  destruct (_ && _) eqn:Hperm.
  - rewrite posts_snoc_post.
    destruct (remote (S (posts tr)) _) as [res2|e2] eqn:E2.
    2: { by rewrite <- app_assoc. }
    rewrite <- app_assoc. cbn [app verdict].
    destruct (httpx.status_code res2 =? 503)%Z; [done|].
    destruct (400 <=? httpx.status_code res2)%Z; [done|].
    unfold res_json. destruct (httpx.json_body res2) as [[| | | |[|[]]|]|]; done.
  - cbn [verdict].
    destruct (httpx.status_code res =? 503)%Z; [done|].
    destruct (400 <=? httpx.status_code res)%Z; [done|].
    unfold res_json. destruct (httpx.json_body res) as [[| | | |[|[]]|]|]; done.
Qed.

Lemma hf_attempt_never_raises (timeout : Q) (payload : json) (tr : list event) :
  ∃ r tr', hf_attempt py key remote timeout payload tr = (Ok r, tr').
Proof.
  rewrite hf_attempt_eq. cbv zeta.
  destruct (insufficient_permissions _); eauto.
Qed.

(** One turn of the loop. *)
Lemma hf_loop_cons (timeout : Q) (payload : json) (max_retries attempt : Z)
    (rest : list Z) (last_error : option exn) (tr : list event) :
  hf_loop py key remote timeout payload max_retries (attempt :: rest) last_error tr =
  match hf_attempt py key remote timeout payload tr with
  | (Ok (Return data), tr') => (Ok data, tr')
  | (Ok (Failed e), tr') =>
      hf_loop py key remote timeout payload max_retries rest (Some e)
        (if (attempt <? max_retries)%Z then tr' ++ [Sleep 0.5] else tr')
  | (Raise e, tr') => (Raise e, tr')
  end.
Proof.
  cbn [hf_loop]. unfold mbind, M_bind, bind.
  destruct (hf_attempt _ _ _ _ _ _) as [[[data|e]|e] tr']; try done.
  by destruct (attempt <? max_retries)%Z.
Qed.

(** Whatever the service does, the client raises nothing but an
    HTTPException. *)
Lemma hf_loop_raises_HTTPException (timeout : Q) (payload : json)
    (max_retries : Z) (attempts : list Z) :
  ∀ last_error tr e tr',
    hf_loop py key remote timeout payload max_retries attempts last_error tr
      = (Raise e, tr') →
    isinstance_HTTPException e = true.
Proof.
  induction attempts as [|attempt rest IH]; intros last_error tr e tr'.
  - cbn [hf_loop]. unfold raise_last_error, raise.
    destruct last_error as [[]|]; cbn; intros [= <- _]; done.
  - rewrite hf_loop_cons.
    destruct (hf_attempt_never_raises timeout payload tr) as (r & t & ->).
    destruct r as [data|e0]; [done|]. apply IH.
Qed.

(** Three failed attempts in a row, with the default [max_retries = 2]:
    two sleeps, one between each two attempts, then the last error is
    raised. *)
Lemma call_three_failures (text : string) (timeout : Q) (tr t0 t1 t2 : list event)
    (e0 e1 e2 : exn) :
  hf_attempt py key remote timeout (payload_of text) tr = (Ok (Failed e0), t0) →
  hf_attempt py key remote timeout (payload_of text) (t0 ++ [Sleep 0.5])
    = (Ok (Failed e1), t1) →
  hf_attempt py key remote timeout (payload_of text) (t1 ++ [Sleep 0.5])
    = (Ok (Failed e2), t2) →
  _call_hf_api py key remote text 2 timeout tr
    = raise_last_error (Some e2) t2.
Proof.
  intros H0 H1 H2. unfold _call_hf_api. cbv zeta.
  change (range (2 + 1)) with [0; 1; 2]%Z.
  rewrite hf_loop_cons, H0. change (0 <? 2)%Z with true. cbv iota.
  rewrite hf_loop_cons, H1. change (1 <? 2)%Z with true. cbv iota.
  rewrite hf_loop_cons, H2. change (2 <? 2)%Z with false. cbv iota.
  reflexivity.
Qed.

(** ** The controller *)

Lemma predict_role_empty (inputs : string) (tr : list event) :
  PyStr.strip inputs = "" →
  predict_role py key remote inputs tr
    = (Raise (HTTPException 400 "inputs field must not be empty"), tr).
Proof. intros H. unfold predict_role. by rewrite H. Qed.

(** A failed remote call and an empty list of predictions both end in the
    keyword heuristic with confidence 0.5, and add nothing to the trace. *)
Lemma predict_role_fallback (inputs : string) (tr tr' : list event) :
  PyStr.strip inputs ≠ "" →
  (∃ e, _call_hf_api py key remote (prepare inputs) 2 6 tr = (Raise e, tr'))
  ∨ _call_hf_api py key remote (prepare inputs) 2 6 tr = (Ok [], tr') →
  predict_role py key remote inputs tr
    = (Ok (respond (heuristic_label (prepare inputs)) 0.5), tr').
Proof.
  intros Hne%String.eqb_neq Hcall. unfold predict_role. rewrite Hne.
  unfold mbind, M_bind, bind, try_except_HTTPException.
  destruct Hcall as [[e Hcall]|Hcall].
  - pose proof (hf_loop_raises_HTTPException _ _ _ _ _ _ _ _ Hcall) as He.
    rewrite Hcall. by destruct e.
  - by rewrite Hcall.
Qed.

(** A non-empty list of predictions: the response is built from the
    maximal item. *)
Lemma predict_role_predictions (inputs : string) (tr tr' : list event)
    (p : json) (ps : list json) :
  PyStr.strip inputs ≠ "" →
  _call_hf_api py key remote (prepare inputs) 2 6 tr = (Ok (p :: ps), tr') →
  predict_role py key remote inputs tr =
  (match max_by_score py (p :: ps) with
   | Raise e => Raise e
   | Ok top_pred =>
       match py_get top_pred "label" (JStr "unknown") with
       | Raise e => Raise e
       | Ok label =>
           match py_get top_pred "score" (JNum 0) with
           | Raise e => Raise e
           | Ok score =>
               match py_float py score with
               | Raise e => Raise e
               | Ok score => Ok (respond (py_str py label) score)
               end
           end
       end
   end, tr').
Proof.
  intros Hne%String.eqb_neq Hcall. unfold predict_role. rewrite Hne.
  unfold mbind, M_bind, bind, try_except_HTTPException. rewrite Hcall.
  unfold lift.
  destruct (max_by_score py (p :: ps)) as [top|]; [|done].
  destruct (py_get top "label" _); [|done].
  destruct (py_get top "score" _) as [sc|]; [|done].
  by destruct (py_float py sc).
Qed.

End RemoteCallClient.

(** ** The fallback heuristic *)



Lemma respond_fallback (text : string) :
  respond (heuristic_label text) 0.5 = fallback_response text.
Proof. reflexivity. Qed.



(** ** Exceptions of the prediction branch *)

Lemma py_get_raises (p : json) (k : string) (d : json) (e : exn) :
  py_get p k d = Raise e → isinstance_HTTPException e = false.
Proof. destruct p; cbn; intros [= <-]; done. Qed.

Lemma py_gt_raises (py : PyBuiltins) (a b : json) (e : exn) :
  py_gt py a b = Raise e → isinstance_HTTPException e = false.
Proof.
  unfold py_gt.
  destruct (as_number a), (as_number b), a, b; try discriminate;
    destruct (py_gt_other py _ _); try discriminate; intros [= <-]; done.
Qed.

Lemma py_float_raises (py : PyBuiltins) (v : json) (e : exn) :
  py_float py v = Raise e → isinstance_HTTPException e = false.
Proof.
  destruct v; cbn; try discriminate; try (intros [= <-]; done).
  destruct (py_float_of_str py s); [discriminate|]. intros [= <-]; done.
Qed.

Lemma max_loop_raises (py : PyBuiltins) (items : list json) :
  ∀ maxitem maxval e,
    max_loop py items maxitem maxval = Raise e →
    isinstance_HTTPException e = false.
Proof.
  induction items as [|p rest IH]; intros maxitem maxval e; cbn [max_loop].
  - discriminate.
  - destruct (score_key p) as [val|e1] eqn:Hk.
    2: { intros [= <-]. by apply py_get_raises in Hk. }
    destruct (py_gt py val maxval) as [[]|e2] eqn:Hgt; [apply IH..|].
    intros [= <-]. by apply py_gt_raises in Hgt.
Qed.

Lemma max_by_score_raises (py : PyBuiltins) (predictions : list json) (e : exn) :
  max_by_score py predictions = Raise e → isinstance_HTTPException e = false.
Proof.
  destruct predictions as [|p rest]; cbn [max_by_score].
  - intros [= <-]; done.
  - destruct (score_key p) as [val|e1] eqn:Hk.
    + apply max_loop_raises.
    + intros [= <-]. by apply py_get_raises in Hk.
Qed.

Section Controller.

Variable py : PyBuiltins.
Variable key : option string.
Variable remote : nat → httpx.Request → httpx.outcome.

Lemma call_first_success (text : string) (timeout : Q) (tr tr' : list event)
    (data : list json) :
  hf_attempt py key remote timeout (payload_of text) tr = (Ok (Return data), tr') →
  _call_hf_api py key remote text 2 timeout tr = (Ok data, tr').
Proof.
  intros H. unfold _call_hf_api. cbv zeta.
  change (range (2 + 1)) with [0; 1; 2]%Z. by rewrite hf_loop_cons, H.
Qed.

(** An attempt whose answer is a 503. *)
Lemma hf_attempt_503 (timeout : Q) (payload : json) (tr : list event)
    (res : httpx.Response) :
  remote (posts tr) (request timeout (headers_to_use key) payload)
    = httpx.Responds res →
  httpx.status_code res = 503%Z →
  hf_attempt py key remote timeout payload tr =
    (Ok (Failed (HTTPException 503 "Model is loading, please retry shortly.")),
     tr ++ [Post (request timeout (headers_to_use key) payload)]).
Proof.
  intros Hr Hs. rewrite hf_attempt_eq. cbv zeta. rewrite Hr.
  cbn [insufficient_permissions verdict]. rewrite Hs. reflexivity.
Qed.

(** With a non-blank input, the only exceptions that can leave
    [predict_role] are those of the prediction branch, none of which is an
    HTTPException. *)
Lemma predict_role_raises (inputs : string) (tr : list event) (e : exn) :
  PyStr.strip inputs ≠ "" →
  (predict_role py key remote inputs tr).1 = Raise e →
  isinstance_HTTPException e = false.
Proof.
  intros Hne.
  destruct (_call_hf_api py key remote (prepare inputs) 2 6 tr)
    as [[[|p ps]|e0] tr'] eqn:Hcall.
  - rewrite (predict_role_fallback py key remote inputs tr tr'); [done|done|by right].
  - rewrite (predict_role_predictions py key remote inputs tr tr' p ps Hne Hcall).
    cbn [fst].
    destruct (max_by_score py (p :: ps)) as [top|e1] eqn:Hmax.
    2: { intros [= <-]. by apply max_by_score_raises in Hmax. }
    destruct (py_get top "label" _) as [label|e1] eqn:Hl.
    2: { intros [= <-]. by apply py_get_raises in Hl. }
    destruct (py_get top "score" _) as [sc|e1] eqn:Hsc.
    2: { intros [= <-]. by apply py_get_raises in Hsc. }
    destruct (py_float py sc) as [q|e1] eqn:Hf; [done|].
    intros [= <-]. by apply py_float_raises in Hf.
  - rewrite (predict_role_fallback py key remote inputs tr tr'); [done|done|].
    left. by exists e0.
Qed.

(** C1 (amended). For every input text that is not empty once its
    surrounding whitespace is stripped, [predict_role] never raises an
    HTTPException to its caller, and whenever the remote call fails it
    returns the keyword-heuristic response. Given three consecutive 503
    answers it sends exactly three requests, sleeping 0.5 between one
    attempt and the next, and then returns the heuristic response with
    confidence exactly 0.5. *)
Theorem predict_role_never_surfaces_remote_error (inputs : string) :
  PyStr.strip inputs ≠ "" →
  (∀ tr status detail,
     (predict_role py key remote inputs tr).1 ≠ Raise (HTTPException status detail))
  ∧ (∀ tr tr' e,
       _call_hf_api py key remote (prepare inputs) 2 6 tr = (Raise e, tr') →
       predict_role py key remote inputs tr
         = (Ok (fallback_response (prepare inputs)), tr'))
  ∧ (∀ tr,
       (∀ k rq, (k < 3)%nat →
          ∃ res, remote (posts tr + k)%nat rq = httpx.Responds res
                 ∧ httpx.status_code res = 503%Z) →
       let rq := request 6 (headers_to_use key) (payload_of (prepare inputs)) in
       predict_role py key remote inputs tr =
         (Ok {| predicted_label := heuristic_label (prepare inputs);
                recommended_roles := recommended_roles (fallback_response (prepare inputs));
                confidence := 0.5 |},
          tr ++ [Post rq; Sleep 0.5; Post rq; Sleep 0.5; Post rq])).
Proof.
  intros Hne. split; [|split].
  - intros tr status detail H.
    by apply (predict_role_raises inputs tr _ Hne) in H.
  - intros tr tr' e Hcall. rewrite <- respond_fallback.
    apply predict_role_fallback; [done|]. left. by exists e.
  - intros tr H503 rq.
    destruct (H503 0%nat rq) as (res0 & Hr0 & Hs0); [lia|].
    destruct (H503 1%nat rq) as (res1 & Hr1 & Hs1); [lia|].
    destruct (H503 2%nat rq) as (res2 & Hr2 & Hs2); [lia|].
    pose proof (hf_attempt_503 6 (payload_of (prepare inputs)) tr res0) as A0.
    rewrite Nat.add_0_r in Hr0. specialize (A0 Hr0 Hs0).
    pose proof (hf_attempt_503 6 (payload_of (prepare inputs))
                  ((tr ++ [Post rq]) ++ [Sleep 0.5]) res1) as A1.
    rewrite posts_snoc_sleep, posts_snoc_post, <- Nat.add_1_r in A1.
    specialize (A1 Hr1 Hs1).
    pose proof (hf_attempt_503 6 (payload_of (prepare inputs))
                  ((((tr ++ [Post rq]) ++ [Sleep 0.5]) ++ [Post rq]) ++ [Sleep 0.5])
                  res2) as A2.
    rewrite posts_snoc_sleep, posts_snoc_post, posts_snoc_sleep, posts_snoc_post in A2.
    replace (S (S (posts tr))) with (posts tr + 2)%nat in A2 by lia.
    specialize (A2 Hr2 Hs2).
    pose proof (call_three_failures py key remote _ _ _ _ _ _ _ _ _ A0 A1 A2) as Hcall.
    cbn [raise_last_error isinstance_HTTPException] in Hcall. unfold raise in Hcall.
    rewrite (predict_role_fallback py key remote inputs tr _ Hne
               (or_introl (ex_intro _ _ Hcall))).
    rewrite respond_fallback. unfold fallback_response at 1.
    cbn [recommended_roles]. f_equal. by rewrite <- !app_assoc.
Qed.

End Controller.

(** ** Attempts, retries and the permission downgrade *)

Section Retries.

Variable py : PyBuiltins.
Variable key : option string.
Variable remote : nat → httpx.Request → httpx.outcome.

(** An attempt whose answer has a status below 400 ends on what the body
    looks like. *)
Lemma hf_attempt_below_400 (timeout : Q) (payload : json) (tr : list event)
    (res : httpx.Response) :
  remote (posts tr) (request timeout (headers_to_use key) payload)
    = httpx.Responds res →
  (httpx.status_code res < 400)%Z →
  hf_attempt py key remote timeout payload tr =
    (Ok match httpx.json_body res with
        | None => Failed (PyException "JSONDecodeError" "Expecting value")
        | Some (JArr (JArr inner :: _)) => Return inner
        | Some (JArr l) => Return l
        | Some data =>
            Failed (HTTPException 500
                      ("Unexpected HuggingFace response: " +:+ py_str py data))
        end,
     tr ++ [Post (request timeout (headers_to_use key) payload)]).
Proof.
  intros Hr Hs. rewrite hf_attempt_eq. cbv zeta. rewrite Hr.
  cbn [insufficient_permissions verdict].
  destruct (Z.eqb_spec (httpx.status_code res) 403); [lia|].
  destruct (Z.eqb_spec (httpx.status_code res) 503); [lia|].
  destruct (Z.leb_spec 400 (httpx.status_code res)); [lia|].
  reflexivity.
Qed.

Lemma hf_attempt_unexpected_shape (timeout : Q) (payload : json) (tr : list event)
    (res : httpx.Response) (data : json) :
  remote (posts tr) (request timeout (headers_to_use key) payload)
    = httpx.Responds res →
  (httpx.status_code res < 400)%Z →
  httpx.json_body res = Some data →
  is_list data = false →
  hf_attempt py key remote timeout payload tr =
    (Ok (Failed (HTTPException 500
                   ("Unexpected HuggingFace response: " +:+ py_str py data))),
     tr ++ [Post (request timeout (headers_to_use key) payload)]).
Proof.
  intros Hr Hs Hb Hl. rewrite (hf_attempt_below_400 _ _ _ res Hr Hs), Hb.
  by destruct data.
Qed.

Lemma hf_attempt_posts (timeout : Q) (payload : json) (tr : list event) :
  ∃ r, hf_attempt py key remote timeout payload tr =
       (Ok r, tr ++ attempt_posts key timeout payload
                      (insufficient_permissions
                         (remote (posts tr)
                            (request timeout (headers_to_use key) payload)))).
Proof.
  rewrite hf_attempt_eq. cbv zeta. unfold attempt_posts.
  destruct (insufficient_permissions _); eauto.
Qed.

Lemma insufficient_permissions_iff (res : httpx.Response) :
  insufficient_permissions (httpx.Responds res) = true
  ↔ httpx.status_code res = 403%Z
    ∧ PyStr.contains "does not have sufficient permissions" (httpx.text res) = true.
Proof.
  cbn [insufficient_permissions]. rewrite andb_true_iff, Z.eqb_eq. done.
Qed.

Lemma anonymous_headers :
  base_headers !! "Authorization" = None
  ∧ delete "Authorization" (headers_to_use key) = base_headers.
Proof.
  assert (H : base_headers !! "Authorization" = None) by done.
  split; [done|]. unfold headers_to_use, auth_headers.
  destruct (truthy_str key).
  - by apply delete_insert_id.
  - by apply delete_id.
Qed.

(** A call that ends by raising went through the loop three times, with
    a sleep between one attempt and the next. *)
Lemma call_raises_three_attempts (text : string) (timeout : Q)
    (tr tr' : list event) (e : exn) :
  _call_hf_api py key remote text 2 timeout tr = (Raise e, tr') →
  ∃ d0 d1 d2,
    tr' = tr ++ attempt_posts key timeout (payload_of text) d0 ++ [Sleep 0.5]
             ++ attempt_posts key timeout (payload_of text) d1 ++ [Sleep 0.5]
             ++ attempt_posts key timeout (payload_of text) d2.
Proof.
  unfold _call_hf_api. cbv zeta. change (range (2 + 1)) with [0; 1; 2]%Z.
  rewrite hf_loop_cons.
  destruct (hf_attempt_posts timeout (payload_of text) tr) as [[d|e0] ->]; [done|].
  set (d0 := insufficient_permissions _). change (0 <? 2)%Z with true. cbv iota.
  rewrite hf_loop_cons.
  destruct (hf_attempt_posts timeout (payload_of text)
              ((tr ++ attempt_posts key timeout (payload_of text) d0) ++ [Sleep 0.5]))
    as [[d|e1] ->]; [done|].
  set (d1 := insufficient_permissions _). change (1 <? 2)%Z with true. cbv iota.
  rewrite hf_loop_cons.
  match goal with
  | |- context [hf_attempt _ _ _ _ _ ?t] =>
      destruct (hf_attempt_posts timeout (payload_of text) t) as [[d|e2] ->]; [done|]
  end.
  set (d2 := insufficient_permissions _). change (2 <? 2)%Z with false. cbv iota.
  cbn [hf_loop]. unfold raise_last_error, raise.
  intros H. exists d0, d1, d2.
  assert (Htr : ∀ x (t : list event), (Raise (A:=list json) x, t) = (Raise e, tr') → tr' = t)
    by (by intros ?? [= _ <-]).
  destruct (isinstance_HTTPException e2); apply Htr in H; rewrite H;
    by rewrite <- !app_assoc.
Qed.

(** C3. Within one attempt the anonymous request is sent exactly when the
    first answer is a 403 whose body has the insufficient-permissions
    wording, and then once: the attempt is the configured request alone,
    or the configured request followed by the same request with the
    Authorization header left out. The downgrade does not use up a retry:
    a call that exhausts its attempts has gone through three of them,
    each with or without the downgrade. *)
Theorem permission_downgrade_within_attempt (timeout : Q) (payload : json) :
  (∀ tr, ∃ r,
     hf_attempt py key remote timeout payload tr =
       (Ok r, tr ++ attempt_posts key timeout payload
                      (insufficient_permissions
                         (remote (posts tr)
                            (request timeout (headers_to_use key) payload)))))
  ∧ (∀ res, insufficient_permissions (httpx.Responds res) = true
            ↔ httpx.status_code res = 403%Z
              ∧ PyStr.contains "does not have sufficient permissions"
                  (httpx.text res) = true)
  ∧ (∀ e, insufficient_permissions (httpx.Fails e) = false)
  ∧ (base_headers !! "Authorization" = None
     ∧ delete "Authorization" (headers_to_use key) = base_headers)
  ∧ (∀ text tr tr' e,
       _call_hf_api py key remote text 2 timeout tr = (Raise e, tr') →
       ∃ d0 d1 d2,
         tr' = tr ++ attempt_posts key timeout (payload_of text) d0 ++ [Sleep 0.5]
                  ++ attempt_posts key timeout (payload_of text) d1 ++ [Sleep 0.5]
                  ++ attempt_posts key timeout (payload_of text) d2).
Proof.
  refine (conj _ (conj _ (conj _ (conj _ _)))).
  - apply hf_attempt_posts.
  - apply insufficient_permissions_iff.
  - reflexivity.
  - apply anonymous_headers.
  - intros text. apply call_raises_three_attempts.
Qed.

End Retries.

Lemma permission_downgrade_within_attempt_witness :
  (_call_hf_api py_plain (Some "hf_token") service_forbidden "resume" 2 6 []).1
    = Raise (HTTPException 403
        "HuggingFace error: This authentication method does not have sufficient permissions to call Inference Providers")
  ∧ ∃ d0 d1 d2,
      (_call_hf_api py_plain (Some "hf_token") service_forbidden "resume" 2 6 []).2
      = [] ++ attempt_posts (Some "hf_token") 6 (payload_of "resume") d0 ++ [Sleep 0.5]
           ++ attempt_posts (Some "hf_token") 6 (payload_of "resume") d1 ++ [Sleep 0.5]
           ++ attempt_posts (Some "hf_token") 6 (payload_of "resume") d2.
Proof.
  split; [by vm_compute|].
  eapply (proj2 (proj2 (proj2 (proj2
            (permission_downgrade_within_attempt py_plain (Some "hf_token")
               service_forbidden 6 (payload_of "resume")))))).
  by vm_compute.
Defined.

(** With every answer a permission refusal, each of the three attempts is
    downgraded: six requests, still two sleeps. *)
Example downgrade_in_every_attempt :
  let tr := (_call_hf_api py_plain (Some "hf_token") service_forbidden "resume" 2 6 []).2 in
  is_post <$> tr = [true; true; false; true; true; false; true; true]
  ∧ posts tr = 6%nat.
Proof. by vm_compute. Qed.

(** ** Answers of an unexpected shape, and empty lists *)

(** C2, as stated, fails: a 200 answer whose body is the JSON object [{}]
    does not end the remote path. The client sends the request three
    times, sleeping between the attempts, before it raises. *)
Lemma unexpected_shape_is_attempted_three_times :
  is_list (JObj ∅) = false
  ∧ service_object 0%nat (request 6 (headers_to_use None) (payload_of "resume"))
    = answer 200 "{}" (Some (JObj ∅))
  ∧ _call_hf_api py_plain None service_object "resume" 2 6 [] =
      (Raise (HTTPException 500 "Unexpected HuggingFace response: <object>"),
       [Post (request 6 base_headers (payload_of "resume")); Sleep 0.5;
        Post (request 6 base_headers (payload_of "resume")); Sleep 0.5;
        Post (request 6 base_headers (payload_of "resume"))])
  ∧ posts (_call_hf_api py_plain None service_object "resume" 2 6 []).2 = 3%nat.
Proof. by vm_compute. Qed.

Section Shapes.

Variable py : PyBuiltins.
Variable key : option string.
Variable remote : nat → httpx.Request → httpx.outcome.

(** C2 (amended). A 2xx answer whose body is JSON but not a list is
    recorded as an "unexpected response" failure with status 500 and is
    treated like every other failed attempt: while attempts remain the
    request is sent again after the 0.5 delay, and an answer of the expected
    nested shape is then returned; after three such answers in a row the
    controller falls back to the keyword heuristic. *)
Theorem unexpected_shape_is_retried (inputs : string) :
  PyStr.strip inputs ≠ "" →
  let text := prepare inputs in
  let rq := request 6 (headers_to_use key) (payload_of text) in
  (∀ tr res data,
     remote (posts tr) rq = httpx.Responds res →
     (200 ≤ httpx.status_code res < 300)%Z →
     httpx.json_body res = Some data →
     is_list data = false →
     hf_attempt py key remote 6 (payload_of text) tr =
       (Ok (Failed (HTTPException 500
                      ("Unexpected HuggingFace response: " +:+ py_str py data))),
        tr ++ [Post rq])
     ∧ ∀ res' inner more,
         remote (S (posts tr)) rq = httpx.Responds res' →
         (200 ≤ httpx.status_code res' < 300)%Z →
         httpx.json_body res' = Some (JArr (JArr inner :: more)) →
         _call_hf_api py key remote text 2 6 tr
           = (Ok inner, tr ++ [Post rq; Sleep 0.5; Post rq]))
  ∧ (∀ tr,
       (∀ k, (k < 3)%nat →
          ∃ res data,
            remote (posts tr + k)%nat rq = httpx.Responds res
            ∧ (200 ≤ httpx.status_code res < 300)%Z
            ∧ httpx.json_body res = Some data
            ∧ is_list data = false) →
       predict_role py key remote inputs tr =
         (Ok (fallback_response text),
          tr ++ [Post rq; Sleep 0.5; Post rq; Sleep 0.5; Post rq])).
Proof.
  intros Hne text rq. split.
  - intros tr res data Hr Hs Hb Hl.
    assert (A0 := hf_attempt_unexpected_shape py key remote 6 (payload_of text)
                    tr res data Hr ltac:(lia) Hb Hl).
    split; [exact A0|].
    intros res' inner more Hr' Hs' Hb'.
    unfold _call_hf_api. cbv zeta. change (range (2 + 1)) with [0; 1; 2]%Z.
    rewrite hf_loop_cons, A0. change (0 <? 2)%Z with true. cbv iota.
    rewrite hf_loop_cons.
    rewrite (hf_attempt_below_400 py key remote 6 (payload_of text) _ res').
    + rewrite Hb'. by rewrite <- !app_assoc.
    + by rewrite posts_snoc_sleep, posts_snoc_post.
    + lia.
  - intros tr H.
    destruct (H 0%nat) as (res0 & d0 & Hr0 & Hs0 & Hb0 & Hl0); [lia|].
    destruct (H 1%nat) as (res1 & d1 & Hr1 & Hs1 & Hb1 & Hl1); [lia|].
    destruct (H 2%nat) as (res2 & d2 & Hr2 & Hs2 & Hb2 & Hl2); [lia|].
    rewrite Nat.add_0_r in Hr0.
    pose proof (hf_attempt_unexpected_shape py key remote 6 (payload_of text)
                  tr res0 d0 Hr0 ltac:(lia) Hb0 Hl0) as A0.
    pose proof (hf_attempt_unexpected_shape py key remote 6 (payload_of text)
                  ((tr ++ [Post rq]) ++ [Sleep 0.5]) res1 d1) as A1.
    rewrite posts_snoc_sleep, posts_snoc_post, <- Nat.add_1_r in A1.
    specialize (A1 Hr1 ltac:(lia) Hb1 Hl1).
    pose proof (hf_attempt_unexpected_shape py key remote 6 (payload_of text)
                  ((((tr ++ [Post rq]) ++ [Sleep 0.5]) ++ [Post rq]) ++ [Sleep 0.5])
                  res2 d2) as A2.
    rewrite posts_snoc_sleep, posts_snoc_post, posts_snoc_sleep, posts_snoc_post in A2.
    replace (S (S (posts tr))) with (posts tr + 2)%nat in A2 by lia.
    specialize (A2 Hr2 ltac:(lia) Hb2 Hl2).
    pose proof (call_three_failures py key remote _ _ _ _ _ _ _ _ _ A0 A1 A2) as Hcall.
    cbn [raise_last_error isinstance_HTTPException] in Hcall. unfold raise in Hcall.
    rewrite (predict_role_fallback py key remote inputs tr _ Hne
               (or_introl (ex_intro _ _ Hcall))).
    rewrite respond_fallback. by rewrite <- !app_assoc.
Qed.

(** C10. A 2xx answer whose body is the empty JSON list is a success of
    the client with no record in it, after a single request; the controller
    then answers exactly as it does when the remote call fails: the
    keyword-heuristic label with confidence 0.5. *)
Theorem empty_list_falls_back (inputs : string) (tr : list event)
    (res : httpx.Response) :
  PyStr.strip inputs ≠ "" →
  let text := prepare inputs in
  let rq := request 6 (headers_to_use key) (payload_of text) in
  remote (posts tr) rq = httpx.Responds res →
  (200 ≤ httpx.status_code res < 300)%Z →
  httpx.json_body res = Some (JArr []) →
  _call_hf_api py key remote text 2 6 tr = (Ok [], tr ++ [Post rq])
  ∧ predict_role py key remote inputs tr =
      (Ok {| predicted_label := heuristic_label text;
             recommended_roles := recommended_roles (fallback_response text);
             confidence := 0.5 |},
       tr ++ [Post rq])
  ∧ (∀ py' key' remote' t t' e,
       _call_hf_api py' key' remote' text 2 6 t = (Raise e, t') →
       (predict_role py' key' remote' inputs t).1
       = (predict_role py key remote inputs tr).1).
Proof.
  intros Hne text rq Hr Hs Hb.
  assert (Hcall : _call_hf_api py key remote text 2 6 tr = (Ok [], tr ++ [Post rq])).
  { apply call_first_success.
    rewrite (hf_attempt_below_400 py key remote 6 (payload_of text) tr res Hr);
      [by rewrite Hb|lia]. }
  assert (Hp : predict_role py key remote inputs tr
               = (Ok (fallback_response text), tr ++ [Post rq])).
  { rewrite <- respond_fallback. apply predict_role_fallback; [done|by right]. }
  split; [done|]. split; [done|].
  intros py' key' remote' t t' e Hfail. rewrite Hp.
  rewrite (predict_role_fallback py' key' remote' inputs t t' Hne);
    [done|left; by exists e].
Qed.

End Shapes.

Lemma unexpected_shape_is_retried_witness :
  PyStr.strip "resume" ≠ ""
  ∧ predict_role py_plain None service_object "resume" [] =
      (Ok (fallback_response "resume"),
       [] ++ [Post (request 6 (headers_to_use None) (payload_of (prepare "resume")));
              Sleep 0.5;
              Post (request 6 (headers_to_use None) (payload_of (prepare "resume")));
              Sleep 0.5;
              Post (request 6 (headers_to_use None) (payload_of (prepare "resume")))]).
Proof.
  assert (Hne : PyStr.strip "resume" ≠ "") by (by vm_compute).
  split; [exact Hne|].
  apply (proj2 (unexpected_shape_is_retried py_plain None service_object "resume" Hne)).
  intros k _. exists {| httpx.status_code := 200; httpx.text := "{}";
                        httpx.json_body := Some (JObj ∅) |}, (JObj ∅).
  split; [reflexivity|]. split; [cbn; lia|]. split; reflexivity.
Defined.

Lemma empty_list_falls_back_witness :
  PyStr.strip "I know SQL" ≠ ""
  ∧ predict_role py_plain None service_empty_list "I know SQL" [] =
      (Ok {| predicted_label := "analysis";
             recommended_roles := ["Data Analyst - Fresher"];
             confidence := 0.5 |},
       [] ++ [Post (request 6 (headers_to_use None) (payload_of (prepare "I know SQL")))]).
Proof.
  assert (Hne : PyStr.strip "I know SQL" ≠ "") by (by vm_compute).
  split; [exact Hne|].
  refine (proj1 (proj2
    (empty_list_falls_back py_plain None service_empty_list "I know SQL" []
       {| httpx.status_code := 200; httpx.text := "[]";
          httpx.json_body := Some (JArr []) |} Hne _ _ _))).
  - reflexivity.
  - cbn. lia.
  - reflexivity.
Defined.

(** ** Inputs of the controller *)

(** C1, as stated, fails: the text " " is not empty, and [predict_role]
    raises on it (status 400) instead of returning a response. *)
Lemma predict_role_blank_input_raises :
  " " ≠ ""
  ∧ predict_role py_plain None service_loading " " []
    = (Raise (HTTPException 400 "inputs field must not be empty"), []).
Proof. split; [discriminate|reflexivity]. Qed.

(** What is not an HTTPException is not caught: a 200 answer with the
    list [[1]] makes [max] call [.get] on a number. *)
Example items_that_are_not_records :
  predict_role py_plain None (λ _ _, answer 200 "[1]" (Some (JArr [JNum 1])))
    "resume" []
  = (Raise (PyException "AttributeError" "object has no attribute 'get'"),
     [Post (request 6 base_headers (payload_of "resume"))]).
Proof. by vm_compute. Qed.

Lemma predict_role_never_surfaces_remote_error_witness :
  PyStr.strip "I build React and Python apps" ≠ ""
  ∧ predict_role py_plain (Some "hf_token") service_loading
      "I build React and Python apps" [] =
    (Ok {| predicted_label := "technology";
           recommended_roles :=
             ["Software Engineer - Fresher"; "Full Stack Developer - Fresher"];
           confidence := 0.5 |},
     let rq := request 6 (headers_to_use (Some "hf_token"))
                 (payload_of (prepare "I build React and Python apps")) in
     [] ++ [Post rq; Sleep 0.5; Post rq; Sleep 0.5; Post rq]).
Proof.
  assert (Hne : PyStr.strip "I build React and Python apps" ≠ "") by (by vm_compute).
  split; [exact Hne|].
  refine (proj2 (proj2
    (predict_role_never_surfaces_remote_error py_plain (Some "hf_token")
       service_loading "I build React and Python apps" Hne)) [] _).
  intros k rq _.
  exists {| httpx.status_code := 503; httpx.text := "loading";
            httpx.json_body := None |}.
  split; reflexivity.
Defined.

(** ** The winning prediction *)






Section Winner.

Variable py : PyBuiltins.
Variable key : option string.
Variable remote : nat → httpx.Request → httpx.outcome.


End Winner.


(** Equal scores: the earlier record wins. *)
Example tie_goes_to_the_first :
  (predict_role py_plain None
     (λ _ _, answer 200 ""
               (Some (JArr [record "analysis" 0.4; record "learning" 0.4;
                            record "creativity" 0.2])))
     "resume" []).1
  = Ok {| predicted_label := "analysis";
          recommended_roles := ["Data Analyst - Fresher"];
          confidence := 0.4 |}.
Proof. by vm_compute. Qed.

(** ** The aggregator *)

Lemma invoke_eq {A} (c : call) (r : result A) (tr : list call) :
  invoke c r tr = (r, tr ++ [c]).
Proof. unfold invoke, mbind, M_bind, bind, emit, lift. reflexivity. Qed.

Section Aggregator.

Context {UploadFile : Type}.
Variable process_resume_file : UploadFile → result json.
Variable extract_username_from_input : string → result (option string).
Variable get_github_repo_counts : string → string → result (gmap string json).
Variable get_pr_metrics : string → string → result (gmap string json).
Variable GITHUB_TOKEN_ENV : option string.
Variable analyze_leetcode : string → result json.
Variable analyze_codechef : string → result json.

Local Abbreviation github_try' :=
  (github_try extract_username_from_input get_github_repo_counts get_pr_metrics
     GITHUB_TOKEN_ENV).
Local Abbreviation github_section' :=
  (github_section extract_username_from_input get_github_repo_counts get_pr_metrics
     GITHUB_TOKEN_ENV).
Local Abbreviation analyze_all' :=
  (analyze_all process_resume_file extract_username_from_input
     get_github_repo_counts get_pr_metrics GITHUB_TOKEN_ENV
     analyze_leetcode analyze_codechef).

(** The GitHub block never raises; it calls the username helper first and
    assigns exactly one of its two keys. *)
Lemma github_section_step (github token : option string)
    (results : gmap string json) (tr : list call) :
  ∃ results' tr',
    github_section' github token results tr = (Ok results', tr')
    ∧ section_step "github" (truthy_str github)
        (CallExtractUsername (default "" github)) results results' tr tr'.
Proof.
  unfold github_section, section_step.
  destruct (truthy_str github); [|by eauto].
  unfold try_except, github_try, mbind, M_bind, bind, mret, M_ret, ret.
  rewrite invoke_eq.
  destruct (extract_username_from_input _) as [username|e].
  2: { eexists _, _. split; [done|]. split; [by exists []|]. right. by eexists. }
  destruct (truthy_str username); cbn [negb].
  2: { eexists _, _. split; [done|]. split; [by exists []|]. right. by eexists. }
  destruct (truthy_str (or_str token GITHUB_TOKEN_ENV)); cbn [negb].
  2: { eexists _, _. split; [done|]. split; [by exists []|]. right. by eexists. }
  cbv zeta. rewrite invoke_eq.
  destruct (get_github_repo_counts _ _) as [gql|e].
  2: { eexists _, _. split; [done|]. rewrite <- app_assoc.
       split; [by eexists|]. right. by eexists. }
  destruct (key_in "error_graphql" gql).
  { eexists _, _. split; [done|]. rewrite <- app_assoc.
    split; [by eexists|]. right. by eexists. }
  rewrite invoke_eq.
  destruct (get_pr_metrics _ _) as [pr|e].
  2: { eexists _, _. split; [done|]. rewrite <- !app_assoc.
       split; [by eexists|]. right. by eexists. }
  destruct (key_in "error_pr_api" pr).
  - eexists _, _. split; [done|]. rewrite <- !app_assoc.
    split; [by eexists|]. right. by eexists.
  - eexists _, _. split; [done|]. rewrite <- !app_assoc.
    split; [by eexists|]. left. by eexists.
Qed.

Lemma leetcode_section_step (leetcode : option string)
    (results : gmap string json) (tr : list call) :
  ∃ results' tr',
    leetcode_section analyze_leetcode leetcode results tr = (Ok results', tr')
    ∧ section_step "leetcode" (truthy_str leetcode)
        (CallAnalyzeLeetcode (default "" leetcode)) results results' tr tr'.
Proof.
  unfold leetcode_section, section_step.
  destruct (truthy_str leetcode); [|by eauto].
  unfold try_except, mbind, M_bind, bind, mret, M_ret, ret. rewrite invoke_eq.
  destruct (analyze_leetcode _) as [lc_data|e]; eexists _, _;
    (split; [done|]); (split; [by exists []|]); [left|right]; by eexists.
Qed.

Lemma codechef_section_step (codechef : option string)
    (results : gmap string json) (tr : list call) :
  ∃ results' tr',
    codechef_section analyze_codechef codechef results tr = (Ok results', tr')
    ∧ section_step "codechef" (truthy_str codechef)
        (CallAnalyzeCodechef (default "" codechef)) results results' tr tr'.
Proof.
  unfold codechef_section, section_step.
  destruct (truthy_str codechef); [|by eauto].
  unfold try_except, mbind, M_bind, bind, mret, M_ret, ret. rewrite invoke_eq.
  destruct (analyze_codechef _) as [cc_data|e]; eexists _, _;
    (split; [done|]); (split; [by exists []|]); [left|right]; by eexists.
Qed.

(** The route on a resume that was processed: the three blocks in turn. *)
Lemma analyze_all_resume_ok (file : UploadFile)
    (github leetcode codechef token : option string) (tr : list call)
    (resume_result : json) :
  process_resume_file file = Ok resume_result →
  is_error_dict resume_result = false →
  ∃ r1 t1 r2 t2 r3 t3,
    analyze_all' file github leetcode codechef token tr = (Ok (Returned r3), t3)
    ∧ section_step "github" (truthy_str github)
        (CallExtractUsername (default "" github))
        (<[ "resume" := resume_result ]> ∅) r1 (tr ++ [CallProcessResumeFile]) t1
    ∧ section_step "leetcode" (truthy_str leetcode)
        (CallAnalyzeLeetcode (default "" leetcode)) r1 r2 t1 t2
    ∧ section_step "codechef" (truthy_str codechef)
        (CallAnalyzeCodechef (default "" codechef)) r2 r3 t2 t3.
Proof.
  intros Hres Herr. unfold analyze_all. cbv zeta.
  unfold mbind, M_bind, bind. rewrite invoke_eq, Hres, Herr.
  destruct (github_section_step github token (<[ "resume" := resume_result ]> ∅)
              (tr ++ [CallProcessResumeFile])) as (r1 & t1 & -> & H1).
  destruct (leetcode_section_step leetcode r1 t1) as (r2 & t2 & -> & H2).
  destruct (codechef_section_step codechef r2 t2) as (r3 & t3 & -> & H3).
  by exists r1, t1, r2, t2, r3, t3.
Qed.


(** An exception of the resume helper is not handled by the route: it
    leaves [analyze_all], again before any other adapter is called. *)
Lemma resume_exception_propagates (file : UploadFile)
    (github leetcode codechef token : option string) (tr : list call) (e : exn) :
  process_resume_file file = Raise e →
  analyze_all' file github leetcode codechef token tr
  = (Raise e, tr ++ [CallProcessResumeFile]).
Proof.
  intros Hres. unfold analyze_all. cbv zeta.
  unfold mbind, M_bind, bind. by rewrite invoke_eq, Hres.
Qed.

(** C5. When the resume was processed, the route returns the [results]
    dict, with the resume under "resume", and for each of github, leetcode
    and codechef: with the identifier absent ([None] or empty) neither the
    source key nor its [_error] key is present; with the identifier
    supplied the source's adapter has been called and exactly one of the
    two keys is present. This holds whatever the adapters of the other
    sources return or raise. *)
Theorem optional_sources_one_key_each (file : UploadFile)
    (github leetcode codechef token : option string) (tr : list call)
    (resume_result : json) :
  process_resume_file file = Ok resume_result →
  is_error_dict resume_result = false →
  ∃ results tr',
    analyze_all' file github leetcode codechef token tr
      = (Ok (Returned results), tr')
    ∧ results !! "resume" = Some resume_result
    ∧ (if truthy_str github
       then exactly_one_key "github" results
            ∧ CallExtractUsername (default "" github) ∈ tr'
       else no_key "github" results)
    ∧ (if truthy_str leetcode
       then exactly_one_key "leetcode" results
            ∧ CallAnalyzeLeetcode (default "" leetcode) ∈ tr'
       else no_key "leetcode" results)
    ∧ (if truthy_str codechef
       then exactly_one_key "codechef" results
            ∧ CallAnalyzeCodechef (default "" codechef) ∈ tr'
       else no_key "codechef" results).
Proof.
  intros Hres Herr.
  destruct (analyze_all_resume_ok file github leetcode codechef token tr
              resume_result Hres Herr)
    as (r1 & t1 & r2 & t2 & r3 & t3 & Hrun & H1 & H2 & H3).
  exists r3, t3. split; [done|]. clear Hrun Hres Herr.
  unfold section_step, exactly_one_key, no_key in *. cbn [String.append] in *.
  destruct (truthy_str github), (truthy_str leetcode), (truthy_str codechef);
    destruct H1 as [H1t H1r], H2 as [H2t H2r], H3 as [H3t H3r];
    repeat match goal with
      | H : ∃ _, _ |- _ => destruct H as [? H]
      | H : _ ∨ _ |- _ => destruct H as [H|H]
      end; subst;
    repeat split;
    rewrite ?elem_of_app, ?elem_of_cons;
    try (simplify_map_eq; by eauto 7).
Qed.

(** The LeetCode and CodeChef blocks in closed form. *)
Lemma leetcode_section_eq (leetcode : option string)
    (results : gmap string json) (tr : list call) :
  leetcode_section analyze_leetcode leetcode results tr =
  if truthy_str leetcode
  then (Ok (recorded "leetcode" (analyze_leetcode (default "" leetcode)) results),
        tr ++ [CallAnalyzeLeetcode (default "" leetcode)])
  else (Ok results, tr).
Proof.
  unfold leetcode_section. destruct (truthy_str leetcode); [|done].
  unfold try_except, mbind, M_bind, bind, mret, M_ret, ret. rewrite invoke_eq.
  by destruct (analyze_leetcode _).
Qed.

Lemma codechef_section_eq (codechef : option string)
    (results : gmap string json) (tr : list call) :
  codechef_section analyze_codechef codechef results tr =
  if truthy_str codechef
  then (Ok (recorded "codechef" (analyze_codechef (default "" codechef)) results),
        tr ++ [CallAnalyzeCodechef (default "" codechef)])
  else (Ok results, tr).
Proof.
  unfold codechef_section. destruct (truthy_str codechef); [|done].
  unfold try_except, mbind, M_bind, bind, mret, M_ret, ret. rewrite invoke_eq.
  by destruct (analyze_codechef _).
Qed.

(** The GitHub block in closed form, once the username and the token are
    there: the two sub-calls in sequence, the second only after the first
    came back without an error. *)
Lemma github_section_eq (github username tok : string) (token : option string)
    (results : gmap string json) (tr : list call) :
  github ≠ "" →
  extract_username_from_input github = Ok (Some username) →
  username ≠ "" →
  or_str token GITHUB_TOKEN_ENV = Some tok →
  tok ≠ "" →
  github_section' (Some github) token results tr =
  let first := [CallExtractUsername github; CallGithubRepoCounts username tok] in
  let both := first ++ [CallPrMetrics username tok] in
  match get_github_repo_counts username tok with
  | Raise e => (Ok (<[ "github_error" := JStr (exn_str e) ]> results), tr ++ first)
  | Ok gql =>
      match gql !! "error_graphql" with
      | Some msg => (Ok (<[ "github_error" := msg ]> results), tr ++ first)
      | None =>
          match get_pr_metrics username tok with
          | Raise e =>
              (Ok (<[ "github_error" := JStr (exn_str e) ]> results), tr ++ both)
          | Ok pr =>
              match pr !! "error_pr_api" with
              | Some msg => (Ok (<[ "github_error" := msg ]> results), tr ++ both)
              | None =>
                  (Ok (<[ "github" :=
                            JObj {[ "username" := JStr username;
                                    "github_metrics" := JObj (pr ∪ gql) ]} ]> results),
                   tr ++ both)
              end
          end
      end
  end.
Proof.
  intros Hg%String.eqb_neq Hu Hune%String.eqb_neq Ht Htne%String.eqb_neq.
  unfold github_section, github_try. cbn [truthy_str from_option id].
  rewrite Hg. cbn [negb].
  unfold try_except, mbind, M_bind, bind, mret, M_ret, ret.
  rewrite invoke_eq, Hu. cbn [truthy_str from_option id]. rewrite Hune. cbn [negb].
  rewrite Ht. cbn [truthy_str from_option id]. rewrite Htne. cbn [negb]. cbv zeta.
  rewrite invoke_eq.
  destruct (get_github_repo_counts username tok) as [gql|e];
    [|by rewrite <- app_assoc].
  unfold key_in, dict_get.
  destruct (gql !! "error_graphql") as [msg|]; [by rewrite <- app_assoc|].
  rewrite invoke_eq.
  destruct (get_pr_metrics username tok) as [pr|e];
    [|by rewrite <- !app_assoc].
  destruct (pr !! "error_pr_api") as [msg|]; by rewrite <- !app_assoc.
Qed.

Lemma recorded_lookup_ne (name k : string) (r : result json)
    (results : gmap string json) :
  k ≠ name → k ≠ name +:+ "_error" →
  recorded name r results !! k = results !! k.
Proof. intros. destruct r; cbn [recorded]; by rewrite lookup_insert_ne. Qed.

(** The route once the GitHub block has been entered with a username and
    a token: the GitHub keys are those the block assigned, and the later
    blocks call no GitHub helper. *)
Lemma analyze_all_github_keys (file : UploadFile) (github : string)
    (leetcode codechef token : option string) (tr : list call)
    (resume_result : json) (r1 : gmap string json) (calls : list call) :
  process_resume_file file = Ok resume_result →
  is_error_dict resume_result = false →
  github_section' (Some github) token (<[ "resume" := resume_result ]> ∅)
    (tr ++ [CallProcessResumeFile]) = (Ok r1, (tr ++ [CallProcessResumeFile]) ++ calls) →
  ∃ results later,
    analyze_all' file (Some github) leetcode codechef token tr
      = (Ok (Returned results), tr ++ CallProcessResumeFile :: calls ++ later)
    ∧ results !! "github" = r1 !! "github"
    ∧ results !! "github_error" = r1 !! "github_error"
    ∧ forallb (λ c, negb (is_pr_metrics_call c)) later = true.
Proof.
  intros Hres Herr Hgh. unfold analyze_all. cbv zeta.
  unfold mbind at 1, M_bind at 1, bind at 1. rewrite invoke_eq, Hres, Herr.
  unfold mbind at 1, M_bind at 1, bind at 1. rewrite Hgh.
  unfold mbind at 1, M_bind at 1, bind at 1. rewrite leetcode_section_eq.
  unfold mbind at 1, M_bind at 1, bind at 1.
  destruct (truthy_str leetcode); rewrite codechef_section_eq;
    destruct (truthy_str codechef); unfold mret, M_ret, ret.
  - eexists _, [CallAnalyzeLeetcode _; CallAnalyzeCodechef _].
    split; [f_equal; by rewrite <- !app_assoc|].
    rewrite !recorded_lookup_ne by done. done.
  - eexists _, [CallAnalyzeLeetcode _].
    split; [f_equal; by rewrite <- !app_assoc|].
    rewrite !recorded_lookup_ne by done. done.
  - eexists _, [CallAnalyzeCodechef _].
    split; [f_equal; by rewrite <- !app_assoc|].
    rewrite !recorded_lookup_ne by done. done.
  - eexists _, [].
    split; [f_equal; by rewrite app_nil_r, <- !app_assoc|]. done.
Qed.

(** C6. GitHub is all or nothing. With the username parsed and a token at
    hand: when the first sub-call reports an error, or raises, the response
    has [github_error] with its message and no [github] key, and the second
    sub-call is not made; when the first sub-call succeeds and the second
    reports an error, or raises, the response has [github_error] with the
    message of the second and no [github] key, so nothing of the first
    sub-call's data is in the response. *)
Theorem github_all_or_nothing (file : UploadFile) (github username tok : string)
    (leetcode codechef token : option string) (tr : list call)
    (resume_result : json) :
  process_resume_file file = Ok resume_result →
  is_error_dict resume_result = false →
  github ≠ "" →
  extract_username_from_input github = Ok (Some username) →
  username ≠ "" →
  or_str token GITHUB_TOKEN_ENV = Some tok →
  tok ≠ "" →
  ∃ results calls,
    analyze_all' file (Some github) leetcode codechef token tr
      = (Ok (Returned results), tr ++ calls)
    ∧ (∀ gql msg,
         get_github_repo_counts username tok = Ok gql →
         gql !! "error_graphql" = Some msg →
         results !! "github_error" = Some msg
         ∧ results !! "github" = None
         ∧ forallb (λ c, negb (is_pr_metrics_call c)) calls = true)
    ∧ (∀ e,
         get_github_repo_counts username tok = Raise e →
         results !! "github_error" = Some (JStr (exn_str e))
         ∧ results !! "github" = None
         ∧ forallb (λ c, negb (is_pr_metrics_call c)) calls = true)
    ∧ (∀ gql,
         get_github_repo_counts username tok = Ok gql →
         gql !! "error_graphql" = None →
         CallPrMetrics username tok ∈ calls
         ∧ (∀ pr msg,
              get_pr_metrics username tok = Ok pr →
              pr !! "error_pr_api" = Some msg →
              results !! "github_error" = Some msg ∧ results !! "github" = None)
         ∧ (∀ e,
              get_pr_metrics username tok = Raise e →
              results !! "github_error" = Some (JStr (exn_str e))
              ∧ results !! "github" = None)).
Proof.
  intros Hres Herr Hg Hu Hune Ht Htne.
  pose proof (github_section_eq github username tok token
                (<[ "resume" := resume_result ]> ∅) (tr ++ [CallProcessResumeFile])
                Hg Hu Hune Ht Htne) as Hgh.
  cbv zeta in Hgh.
  destruct (get_github_repo_counts username tok) as [gql|e] eqn:Hgql.
  2: { destruct (analyze_all_github_keys file github leetcode codechef token tr
                   resume_result _ _ Hres Herr Hgh)
         as (results & later & Hrun & Hk & Hke & Hlater).
       exists results, (CallProcessResumeFile
                        :: [CallExtractUsername github;
                            CallGithubRepoCounts username tok] ++ later).
       split; [exact Hrun|]. rewrite Hk, Hke.
       split; [done|]. split; [|done].
       intros e' [= <-]. by simplify_map_eq. }
  destruct (gql !! "error_graphql") as [msg|] eqn:Hmsg.
  { destruct (analyze_all_github_keys file github leetcode codechef token tr
                resume_result _ _ Hres Herr Hgh)
      as (results & later & Hrun & Hk & Hke & Hlater).
    exists results, (CallProcessResumeFile
                     :: [CallExtractUsername github;
                         CallGithubRepoCounts username tok] ++ later).
    split; [exact Hrun|]. rewrite Hk, Hke.
    split; [|split; [done|]].
    - intros gql' msg' [= <-] Hmsg'. rewrite Hmsg in Hmsg'. injection Hmsg' as <-.
      by simplify_map_eq.
    - intros gql' [= <-] Hnone. congruence. }
  assert (Hpr_in : ∀ later,
            CallPrMetrics username tok
            ∈ CallProcessResumeFile
                :: ([CallExtractUsername github; CallGithubRepoCounts username tok]
                    ++ [CallPrMetrics username tok]) ++ later).
  { intros later. rewrite !elem_of_cons, !elem_of_app, !elem_of_cons. tauto. }
  destruct (get_pr_metrics username tok) as [pr|e] eqn:Hpr.
  2: { destruct (analyze_all_github_keys file github leetcode codechef token tr
                   resume_result _ _ Hres Herr Hgh)
         as (results & later & Hrun & Hk & Hke & Hlater).
       eexists results, _. split; [exact Hrun|]. rewrite Hk, Hke.
       split; [intros gql' msg' [= <-]; congruence|]. split; [done|].
       intros gql' [= <-] _. split; [apply Hpr_in|]. split; [done|].
       intros e' [= <-]. by simplify_map_eq. }
  destruct (pr !! "error_pr_api") as [msg|] eqn:Hmsg2.
  - destruct (analyze_all_github_keys file github leetcode codechef token tr
                resume_result _ _ Hres Herr Hgh)
      as (results & later & Hrun & Hk & Hke & Hlater).
    eexists results, _. split; [exact Hrun|]. rewrite Hk, Hke.
    split; [intros gql' msg' [= <-]; congruence|]. split; [done|].
    intros gql' [= <-] _. split; [apply Hpr_in|]. split; [|done].
    intros pr' msg' [= <-] Hmsg'. rewrite Hmsg2 in Hmsg'. injection Hmsg' as <-.
    by simplify_map_eq.
  - destruct (analyze_all_github_keys file github leetcode codechef token tr
                resume_result _ _ Hres Herr Hgh)
      as (results & later & Hrun & Hk & Hke & Hlater).
    eexists results, _. split; [exact Hrun|].
    split; [intros gql' msg' [= <-]; congruence|]. split; [done|].
    intros gql' [= <-] _. split; [apply Hpr_in|]. split; [|done].
    intros pr' msg' [= <-] Hmsg'. congruence.
Qed.

End Aggregator.


Lemma optional_sources_one_key_each_witness :
  ∃ results tr',
    analyze_all resume_parsed username_as_given repo_counts_fine
      pr_metrics_limited None leetcode_unreachable codechef_fine
      "resume.pdf" (Some "octocat") (Some "lc_user") None (Some "ghp_token") []
    = (Ok (Returned results), tr')
    ∧ results !! "resume" = Some (JObj {[ "skills" := JArr [JStr "python"; JStr "sql"] ]})
    ∧ (exactly_one_key "github" results ∧ CallExtractUsername "octocat" ∈ tr')
    ∧ (exactly_one_key "leetcode" results ∧ CallAnalyzeLeetcode "lc_user" ∈ tr')
    ∧ no_key "codechef" results.
Proof.
  apply (optional_sources_one_key_each resume_parsed username_as_given
           repo_counts_fine pr_metrics_limited None leetcode_unreachable
           codechef_fine "resume.pdf" (Some "octocat") (Some "lc_user") None
           (Some "ghp_token") []).
  - reflexivity.
  - by vm_compute.
Defined.

Lemma github_all_or_nothing_witness :
  ∃ results calls,
    analyze_all resume_parsed username_as_given repo_counts_fine
      pr_metrics_limited None leetcode_unreachable codechef_fine
      "resume.pdf" (Some "octocat") (Some "lc_user") None (Some "ghp_token") []
    = (Ok (Returned results), [] ++ calls)
    ∧ CallPrMetrics "octocat" "ghp_token" ∈ calls
    ∧ results !! "github_error" = Some (JStr "API rate limit exceeded")
    ∧ results !! "github" = None.
Proof.
  destruct (github_all_or_nothing resume_parsed username_as_given
              repo_counts_fine pr_metrics_limited None leetcode_unreachable
              codechef_fine "resume.pdf" "octocat" "octocat" "ghp_token"
              (Some "lc_user") None (Some "ghp_token") []
              (JObj {[ "skills" := JArr [JStr "python"; JStr "sql"] ]}))
    as (results & calls & Hrun & _ & _ & Hsecond).
  - reflexivity.
  - by vm_compute.
  - discriminate.
  - reflexivity.
  - discriminate.
  - reflexivity.
  - discriminate.
  - exists results, calls. split; [exact Hrun|].
    destruct (Hsecond {[ "public_repos" := JNum 12 ]} eq_refl eq_refl)
      as (Hin & Hpr & _).
    split; [exact Hin|].
    exact (Hpr {[ "error_pr_api" := JStr "API rate limit exceeded" ]}
             (JStr "API rate limit exceeded") eq_refl eq_refl).
Defined.

(** One request, end to end: the resume is parsed, the pull-request
    metrics fail, LeetCode raises, no CodeChef handle is given. *)
Example partial_failures_are_recorded :
  let out :=
    analyze_all resume_parsed username_as_given repo_counts_fine
      pr_metrics_limited None leetcode_unreachable codechef_fine
      "resume.pdf" (Some "octocat") (Some "lc_user") None (Some "ghp_token") [] in
  out.2 = [CallProcessResumeFile; CallExtractUsername "octocat";
           CallGithubRepoCounts "octocat" "ghp_token";
           CallPrMetrics "octocat" "ghp_token"; CallAnalyzeLeetcode "lc_user"]
  ∧ ∃ results,
      out.1 = Ok (Returned results)
      ∧ results !! "github" = None
      ∧ results !! "github_error" = Some (JStr "API rate limit exceeded")
      ∧ results !! "leetcode" = None
      ∧ results !! "leetcode_error" = Some (JStr "leetcode unreachable")
      ∧ results !! "codechef" = None
      ∧ results !! "codechef_error" = None.
Proof.
  split; [by vm_compute|].
  eexists. split; [by vm_compute|]. by vm_compute.
Qed.

(** ** The heuristic on concrete texts *)

(** Several groups match: the earlier one gives the label. *)
Example earlier_group_has_priority :
  heuristic_label "Python services, React pages" = "technology"
  ∧ heuristic_label "SQL reports from a Java backend" = "programming"
  ∧ heuristic_label "stakeholder interviews about network security" = "organization"
  ∧ heuristic_label "gardening" = "technology".
Proof. by vm_compute. Qed.

(** The heuristic reads the text the controller works on, which ends at
    character 2000: a keyword beyond it is not seen. *)
Example keyword_beyond_the_cut :
  let inputs :=
    "python" +:+ String.string_of_list_ascii (replicate 1995 "."%char) +:+ "react" in
  String.length inputs = 2006%nat
  ∧ PyStr.contains "react" (prepare inputs) = false
  ∧ (predict_role py_plain None service_loading inputs []).1
    = Ok {| predicted_label := "programming";
            recommended_roles := ["Backend Developer - Fresher"];
            confidence := 0.5 |}.
Proof. by vm_compute. Qed.

(** * Further properties *)

(** ** Substrings, [strip] and [replace] *)

Lemma append_cons (c : ascii) (a t : string) :
  String c a +:+ t = String c (a +:+ t).
Proof. reflexivity. Qed.

Lemma prefix_app_r (a b t : string) :
  String.prefix a b = true → String.prefix a (b +:+ t) = true.
Proof.
  revert b. induction a as [|c a IH]; intros b.
  - intros _. by destruct (b +:+ t).
  - destruct b as [|d b]; [done|]. rewrite append_cons. cbn [String.prefix].
    destruct (ascii_dec c d); [apply IH|done].
Qed.

Lemma prefix_self_app (a t : string) : String.prefix a (a +:+ t) = true.
Proof.
  induction a as [|c a IH]; [by destruct t|].
  rewrite append_cons. cbn [String.prefix]. by destruct (ascii_dec c c).
Qed.

Lemma prefix_split (a b : string) :
  String.prefix a b = true → ∃ t, b = a +:+ t.
Proof.
  revert b. induction a as [|c a IH]; intros b.
  - intros _. by exists b.
  - destruct b as [|d b]; cbn [String.prefix]; [done|].
    destruct (ascii_dec c d) as [->|]; [|done].
    intros [t ->]%IH. by exists t.
Qed.

Lemma prefix_trans (a b s : string) :
  String.prefix a b = true → String.prefix b s = true → String.prefix a s = true.
Proof. intros Hab [t ->]%prefix_split. by apply prefix_app_r. Qed.

Lemma contains_app_r (sub p t : string) :
  PyStr.contains sub p = true → PyStr.contains sub (p +:+ t) = true.
Proof.
  induction p as [|c p IH].
  - cbn [PyStr.contains]. rewrite orb_false_r. intros H.
    destruct sub; [|done]. by destruct t.
  - rewrite append_cons. cbn [PyStr.contains].
    intros [H|H]%orb_true_iff; apply orb_true_iff.
    + left. rewrite <- append_cons. by apply prefix_app_r.
    + right. by apply IH.
Qed.

(** A pattern that begins with another one occurs only where that one
    occurs. *)
Lemma contains_longer (a b s : string) :
  String.prefix a b = true →
  PyStr.contains b s = true → PyStr.contains a s = true.
Proof.
  intros Hab. induction s as [|c s IH]; cbn [PyStr.contains].
  - rewrite !orb_false_r. by apply prefix_trans.
  - intros [H|H]%orb_true_iff; apply orb_true_iff.
    + left. by eapply prefix_trans.
    + right. by apply IH.
Qed.

Lemma contains_lstrip (sub s : string) :
  PyStr.contains sub (PyStr.lstrip s) = true → PyStr.contains sub s = true.
Proof.
  induction s as [|c s IH]; cbn [PyStr.lstrip]; [done|].
  destruct (PyStr.isspace c); [|done].
  intros H%IH. cbn [PyStr.contains]. rewrite H. apply orb_true_r.
Qed.

Lemma rstrip_is_prefix (s : string) : ∃ t, s = PyStr.rstrip s +:+ t.
Proof.
  induction s as [|c s [t IH]]; [by exists ""|].
  cbn [PyStr.rstrip]. destruct (PyStr.rstrip s) as [|d r] eqn:Hr.
  - destruct (PyStr.isspace c); [by exists (String c s)|by exists s].
  - exists t. by rewrite append_cons, <- IH.
Qed.

Lemma contains_rstrip (sub s : string) :
  PyStr.contains sub (PyStr.rstrip s) = true → PyStr.contains sub s = true.
Proof.
  intros H. destruct (rstrip_is_prefix s) as [t Ht]. rewrite Ht.
  by apply contains_app_r.
Qed.

(** What [strip] leaves was in the string. *)
Lemma contains_strip (sub s : string) :
  PyStr.contains sub (PyStr.strip s) = true → PyStr.contains sub s = true.
Proof. unfold PyStr.strip. intros H%contains_rstrip. by apply contains_lstrip. Qed.

Lemma rstrip_cons_nonspace (c : ascii) (s : string) :
  PyStr.isspace c = false → ∃ r, PyStr.rstrip (String c s) = String c r.
Proof.
  intros Hc. cbn [PyStr.rstrip]. rewrite Hc.
  destruct (PyStr.rstrip s); eauto.
Qed.

Lemma rstrip_idempotent (s : string) :
  PyStr.rstrip (PyStr.rstrip s) = PyStr.rstrip s.
Proof.
  induction s as [|c s IH]; [done|].
  cbn [PyStr.rstrip]. destruct (PyStr.rstrip s) as [|d r] eqn:Hr.
  - destruct (PyStr.isspace c) eqn:Hc; [done|]. cbn [PyStr.rstrip]. by rewrite Hc.
  - change (PyStr.rstrip (String c (String d r)))
      with (match PyStr.rstrip (String d r) with
            | "" => if PyStr.isspace c then "" else String c ""
            | r' => String c r'
            end).
    by rewrite IH.
Qed.

Lemma lstrip_head (s : string) :
  PyStr.lstrip s = ""
  ∨ ∃ c t, PyStr.lstrip s = String c t ∧ PyStr.isspace c = false.
Proof.
  induction s as [|c s IH]; [by left|].
  cbn [PyStr.lstrip]. destruct (PyStr.isspace c) eqn:Hc; [done|].
  right. by exists c, s.
Qed.

Lemma strip_idempotent (s : string) :
  PyStr.strip (PyStr.strip s) = PyStr.strip s.
Proof.
  unfold PyStr.strip.
  destruct (lstrip_head s) as [->|(c & t & -> & Hc)]; [done|].
  destruct (rstrip_cons_nonspace c t Hc) as [r Hr].
  rewrite Hr. cbn [PyStr.lstrip]. rewrite Hc, <- Hr. apply rstrip_idempotent.
Qed.

Lemma replace_from_skip (old new p t : string) :
  replace_from old new (String.length p) (p +:+ t) = replace_from old new 0 t.
Proof.
  induction p as [|c p IH]; [done|].
  rewrite append_cons. cbn [String.length replace_from]. apply IH.
Qed.

(** At a match [replace] puts [new] and goes on behind the match. *)
Lemma replace_from_match (c : ascii) (old' new t : string) :
  replace_from (String c old') new 0 (String c old' +:+ t)
  = new +:+ replace_from (String c old') new 0 t.
Proof.
  rewrite append_cons at 1. cbn [replace_from].
  rewrite <- append_cons, prefix_self_app. cbn [String.length].
  replace (S (String.length old') - 1)%nat with (String.length old') by lia.
  by rewrite replace_from_skip.
Qed.

Lemma replace_from_no_match (old new : string) (c : ascii) (t : string) :
  String.prefix old (String c t) = false →
  replace_from old new 0 (String c t) = String c (replace_from old new 0 t).
Proof. intros H. cbn [replace_from]. by rewrite H. Qed.

(** Where [old] does not occur, [replace] changes nothing. *)
Lemma replace_from_absent (old new s : string) :
  PyStr.contains old s = false → replace_from old new 0 s = s.
Proof.
  induction s as [|c s IH]; [done|].
  cbn [PyStr.contains]. intros [Hp Hc]%orb_false_iff.
  rewrite (replace_from_no_match _ _ _ _ Hp). by rewrite IH.
Qed.

(** ** Cleaning the content of the model's answer *)

Lemma fence_head (t : string) :
  String.prefix "``" t = false →
  String.prefix "``" (replace_from "```" "" 0 t) = false.
Proof.
  destruct t as [|c t1]; [done|]. cbn [String.prefix replace_from].
  destruct (ascii_dec "`" c) as [<-|Hc].
  - intros H1. destruct t1 as [|c2 t2]; [done|].
    cbn [String.prefix] in *. destruct (ascii_dec "`" c2) as [<-|Hc2].
    + destruct t2; cbn in H1; done.
    + assert (Hp : String.prefix "```" (String c2 t2) = false)
        by (cbn [String.prefix]; by destruct (ascii_dec "`" c2)).
      rewrite (replace_from_no_match _ _ _ _ Hp). cbn [String.prefix].
      destruct (ascii_dec "`" "`"); [|done]. by destruct (ascii_dec "`" c2).
  - intros _. cbn [String.prefix]. by destruct (ascii_dec "`" c).
Qed.

(** After [replace("```", "")] no fence is left: removing the fences of a
    run of backticks leaves fewer than three of them. *)
Lemma replace_fence_complete (s : string) :
  PyStr.contains "```" (replace_from "```" "" 0 s) = false.
Proof.
  remember (String.length s) as n eqn:Hn.
  assert (Hle : (String.length s ≤ n)%nat) by lia. clear Hn.
  revert s Hle. induction n as [|n IH]; intros s Hle.
  { destruct s; [done|]. cbn in Hle. lia. }
  destruct s as [|c t]; [done|].
  destruct (String.prefix "```" (String c t)) eqn:Hp.
  - destruct (prefix_split _ _ Hp) as [t' Ht']. rewrite Ht'.
    rewrite replace_from_match. apply IH.
    assert (String.length (String c t) = String.length ("```" +:+ t'))
      by (by rewrite Ht').
    cbn [String.length] in *. rewrite !append_cons in H. cbn [String.length] in H.
    change ("" +:+ t') with t' in H. lia.
  - rewrite (replace_from_no_match _ _ _ _ Hp). cbn [PyStr.contains].
    rewrite IH by (cbn [String.length] in Hle; lia). rewrite orb_false_r.
    cbn [String.prefix] in *. destruct (ascii_dec "`" c); [|done].
    by apply fence_head.
Qed.

(** The text handed to [json.loads] has no Markdown fence in it. *)
Lemma clean_content_no_fence (content : string) :
  PyStr.contains "```" (clean_content content) = false.
Proof.
  unfold clean_content, py_replace. cbv zeta.
  destruct (PyStr.contains "```" _) eqn:H; [|done].
  apply contains_strip in H. by rewrite replace_fence_complete in H.
Qed.

(** A text without fence and without surrounding whitespace is handed on
    as it is. *)
Lemma clean_content_clean (s : string) :
  PyStr.contains "```" s = false → PyStr.strip s = s → clean_content s = s.
Proof.
  intros Hf Hs. unfold clean_content, py_replace. cbv zeta. rewrite Hs.
  rewrite (replace_from_absent "```json" "" s).
  - by rewrite (replace_from_absent "```" "" s Hf).
  - destruct (PyStr.contains "```json" s) eqn:H; [|done].
    apply (contains_longer "```" "```json") in H; [congruence|done].
Qed.

(** X8. Cleaning removes every fence and all surrounding whitespace, and a
    text that is clean already is not changed: cleaning twice is cleaning
    once. *)
Theorem clean_content_idempotent (content : string) :
  PyStr.contains "```" (clean_content content) = false
  ∧ PyStr.strip (clean_content content) = clean_content content
  ∧ clean_content (clean_content content) = clean_content content.
Proof.
  assert (Hs : PyStr.strip (clean_content content) = clean_content content)
    by apply strip_idempotent.
  split; [apply clean_content_no_fence|]. split; [exact Hs|].
  apply clean_content_clean; [apply clean_content_no_fence|exact Hs].
Qed.

(** ** The guidance helper *)

Lemma ensure_list_dict (m : gmap string json) (key : string) :
  ensure_list (JObj m) key = Ok (list_or_empty (m !! key)).
Proof.
  unfold ensure_list, py_get. destruct (m !! key) as [[]|]; reflexivity.
Qed.

Lemma ensure_dict_dict (m : gmap string json) (key : string) :
  ensure_dict (JObj m) key = Ok (dict_or_empty (m !! key)).
Proof.
  unfold ensure_dict, py_get. destruct (m !! key) as [[]|]; reflexivity.
Qed.

Lemma normalize_guidance_not_dict (data : json) :
  is_dict data = false →
  normalize_guidance data
  = Raise (PyException "AttributeError" "object has no attribute 'get'").
Proof. by destruct data. Qed.

(** The result dict, key by key. *)
Lemma normalize_guidance_lookup (m : gmap string json) :
  ∃ r, normalize_guidance (JObj m) = Ok r
       ∧ (∀ k, k ∈ guidance_list_keys → r !! k = Some (list_or_empty (m !! k)))
       ∧ r !! "career_clarity_summary"
         = Some (dict_or_empty (m !! "career_clarity_summary"))
       ∧ (∀ k, k ∉ guidance_list_keys → k ≠ "career_clarity_summary" →
               r !! k = None).
Proof.
  unfold normalize_guidance. cbv zeta.
  rewrite !ensure_list_dict, !ensure_dict_dict.
  unfold mbind, result_bind. eexists. split; [reflexivity|].
  split; [|split].
  - intros k. unfold guidance_list_keys. rewrite !elem_of_cons, elem_of_nil.
    intros [->|[->|[->|[->|[->|[->|[->|[->|[->|[]]]]]]]]]];
      repeat (rewrite lookup_insert_eq || rewrite lookup_insert_ne by discriminate);
      reflexivity.
  - repeat (rewrite lookup_insert_eq || rewrite lookup_insert_ne by discriminate).
    reflexivity.
  - intros k. unfold guidance_list_keys. rewrite !not_elem_of_cons.
    intros (?&?&?&?&?&?&?&?&?&_) ?.
    rewrite !lookup_insert_ne by congruence. apply lookup_empty.
Qed.

Lemma list_or_empty_twice (o : option json) :
  list_or_empty (Some (list_or_empty o)) = list_or_empty o.
Proof. by destruct o as [[]|]. Qed.

Lemma dict_or_empty_twice (o : option json) :
  dict_or_empty (Some (dict_or_empty o)) = dict_or_empty o.
Proof. by destruct o as [[]|]. Qed.

(** X9. The ten keys of a guidance are filled from the parsed dict: a value of
    the expected type is kept as it is, any other value and a missing key
    become the empty list (the empty dict for [career_clarity_summary]),
    and whatever else the parsed dict holds is dropped. A result that is
    put through the same lines again comes out unchanged. *)
Theorem normalize_guidance_keeps_typed_values (m : gmap string json) :
  ∃ r,
    normalize_guidance (JObj m) = Ok r
    ∧ (∀ k, k ∈ guidance_list_keys → r !! k = Some (list_or_empty (m !! k)))
    ∧ r !! "career_clarity_summary"
      = Some (dict_or_empty (m !! "career_clarity_summary"))
    ∧ (∀ k, k ∉ guidance_list_keys → k ≠ "career_clarity_summary" →
            r !! k = None)
    ∧ guidance_shape r
    ∧ normalize_guidance (JObj r) = Ok r.
Proof.
  destruct (normalize_guidance_lookup m) as (r & Hr & Hl & Hc & Hn).
  exists r. split; [done|]. split; [done|]. split; [done|]. split; [done|].
  split.
  - split; [|split; [|done]].
    + intros k Hk. rewrite (Hl k Hk). destruct (m !! k) as [[]|]; cbn; eauto.
    + rewrite Hc. destruct (m !! "career_clarity_summary") as [[]|]; cbn; eauto.
  - destruct (normalize_guidance_lookup r) as (r' & Hr' & Hl' & Hc' & Hn').
    rewrite Hr'. f_equal. apply map_eq. intros k.
    destruct (decide (k ∈ guidance_list_keys)) as [Hk|Hk].
    { by rewrite (Hl' k Hk), (Hl k Hk), list_or_empty_twice. }
    destruct (decide (k = "career_clarity_summary")) as [->|Hne].
    { by rewrite Hc', Hc, dict_or_empty_twice. }
    by rewrite (Hn' k Hk Hne), (Hn k Hk Hne).
Qed.

Section GuidanceProperties.

Variable json_loads : string → option json.
Variable prompt_of : json → string.

(** The helper with a client, in closed form. *)
Lemma generate_guidance_configured
    (create : ChatRequest → result (list (option string)))
    (resume_data : json) (tr : list llm_event) :
  let cleaned := if truthy resume_data then resume_data else JObj ∅ in
  let rq := guidance_request prompt_of cleaned in
  let failed (e : exn) : gmap string json :=
    {[ "error" := JStr ("Guidance LLM call failed: " +:+ exn_str e) ]} in
  generate_guidance (Some create) json_loads prompt_of resume_data tr =
  (Ok (JObj
     match create rq with
     | Raise e => failed e
     | Ok choices =>
         match first_content choices with
         | Raise e => failed e
         | Ok content =>
             match json_loads (clean_content content) with
             | None => {[ "error" := JStr "Failed to parse guidance JSON";
                          "raw" := JStr (clean_content content) ]}
             | Some data =>
                 match normalize_guidance data with
                 | Raise e => failed e
                 | Ok result => result
                 end
             end
         end
     end),
   tr ++ [ChatCompletion rq]).
Proof.
  cbv zeta. unfold generate_guidance.
  unfold try_except, guidance_try, mbind, M_bind, bind, emit, lift, mret, M_ret, ret.
  cbv zeta.
  destruct (create _) as [choices|e]; [|done].
  destruct (first_content choices) as [content|e]; [|done].
  destruct (json_loads _) as [data|]; [|done].
  by destruct (normalize_guidance data).
Qed.

Lemma failed_error_shape (msg : string) :
  error_shape {[ "error" := JStr msg ]}.
Proof.
  split; [exists msg; by simplify_map_eq|].
  intros k ? ?. by simplify_map_eq.
Qed.

(** X10. The helper never raises and always returns a dict. Without a client it
    returns the empty dict and calls nothing; with a client it makes
    exactly one chat completion, and the dict is either a guidance (the ten
    keys, each of its type) or an error payload (a message under [error],
    at most [raw] beside it), whatever the client and the parser do. *)
Theorem generate_guidance_always_a_dict
    (openrouter_client : option (ChatRequest → result (list (option string))))
    (resume_data : json) (tr : list llm_event) :
  ∃ d added,
    generate_guidance openrouter_client json_loads prompt_of resume_data tr
    = (Ok (JObj d), tr ++ added)
    ∧ match openrouter_client with
      | None => d = ∅ ∧ added = []
      | Some _ =>
          added = [ChatCompletion
                     (guidance_request prompt_of
                        (if truthy resume_data then resume_data else JObj ∅))]
          ∧ (guidance_shape d ∨ error_shape d)
      end.
Proof.
  destruct openrouter_client as [create|].
  - eexists _, _. split; [apply generate_guidance_configured|].
    split; [done|].
    destruct (create _) as [choices|e]; [|right; apply failed_error_shape].
    destruct (first_content choices) as [content|e];
      [|right; apply failed_error_shape].
    destruct (json_loads _) as [data|].
    2: { right. split; [eexists; by simplify_map_eq|].
         intros k ? ?. by simplify_map_eq. }
    destruct (is_dict data) eqn:Hd.
    + destruct data as [| | | | |m]; try discriminate Hd.
      destruct (normalize_guidance_keeps_typed_values m)
        as (r & -> & _ & _ & _ & Hshape & _).
      by left.
    + rewrite (normalize_guidance_not_dict data Hd).
      right. apply failed_error_shape.
  - exists ∅, []. split; [by rewrite app_nil_r|done].
Qed.

(** X11. What goes wrong on the way becomes an error payload with the cause in
    it: an exception of the client, an answer without choices, and a text
    that does not parse (which is returned under [raw], cleaned). *)
Theorem guidance_failures_are_payloads
    (create : ChatRequest → result (list (option string)))
    (resume_data : json) (tr : list llm_event) :
  let rq := guidance_request prompt_of
              (if truthy resume_data then resume_data else JObj ∅) in
  let run := generate_guidance (Some create) json_loads prompt_of resume_data tr in
  (∀ e, create rq = Raise e →
        run.1 = Ok (JObj {[ "error" :=
                              JStr ("Guidance LLM call failed: " +:+ exn_str e) ]}))
  ∧ (create rq = Ok [] →
     run.1 = Ok (JObj {[ "error" :=
                           JStr "Guidance LLM call failed: list index out of range" ]}))
  ∧ (∀ content rest,
       create rq = Ok (Some content :: rest) →
       json_loads (clean_content content) = None →
       run.1 = Ok (JObj {[ "error" := JStr "Failed to parse guidance JSON";
                           "raw" := JStr (clean_content content) ]})
       ∧ PyStr.contains "```" (clean_content content) = false)
  ∧ (∀ content rest data,
       create rq = Ok (Some content :: rest) →
       json_loads (clean_content content) = Some data →
       is_dict data = false →
       ∃ msg,
         run.1 = Ok (JObj {[ "error" :=
                               JStr ("Guidance LLM call failed: " +:+ msg) ]})).
Proof.
  intros rq run.
  pose proof (generate_guidance_configured create resume_data tr) as Hrun.
  cbv zeta in Hrun. fold rq in Hrun. fold run in Hrun. rewrite Hrun. cbn [fst].
  split; [|split; [|split]].
  - by intros e ->.
  - by intros ->.
  - intros content rest -> Hl. cbn [first_content]. rewrite Hl.
    split; [done|apply clean_content_no_fence].
  - intros content rest data -> Hl Hd. cbn [first_content]. rewrite Hl.
    rewrite (normalize_guidance_not_dict data Hd). by eexists.
Qed.

(** X12. The route answers 400 to an empty [resume_data] without calling the
    model; otherwise it answers with the dict of the helper under
    [guidance], after at most one chat completion. It never answers 500,
    also when the model fails: the failure is inside the guidance. *)
Theorem guidance_endpoint_never_500
    (openrouter_client : option (ChatRequest → result (list (option string))))
    (resume_data : json) (tr : list llm_event) :
  if truthy resume_data then
    ∃ d added,
      generate_guidance_endpoint openrouter_client json_loads prompt_of
        resume_data tr
      = (Ok (JObj {[ "guidance" := JObj d ]}), tr ++ added)
      ∧ (length added ≤ 1)%nat
      ∧ generate_guidance openrouter_client json_loads prompt_of resume_data tr
        = (Ok (JObj d), tr ++ added)
  else
    generate_guidance_endpoint openrouter_client json_loads prompt_of
      resume_data tr
    = (Raise (HTTPException 400 "resume_data is required"), tr).
Proof.
  unfold generate_guidance_endpoint.
  destruct (truthy resume_data) eqn:Ht; cbn [negb]; [|done].
  destruct (generate_guidance_always_a_dict openrouter_client resume_data tr)
    as (d & added & Hrun & Hshape).
  rewrite Ht in Hshape.
  exists d, added. unfold mbind, M_bind, bind. rewrite Hrun. cbn [is_dict negb].
  split; [done|]. split; [|done].
  destruct openrouter_client; [destruct Hshape as [-> _]|destruct Hshape as [_ ->]];
    cbn [length]; lia.
Qed.

End GuidanceProperties.

(** ** The retry loop for any [max_retries] *)

Lemma sleeps_app (a b : list event) : sleeps (a ++ b) = (sleeps a + sleeps b)%nat.
Proof. unfold sleeps. by rewrite List.filter_app, length_app. Qed.

Lemma range_length (n : Z) : length (range n) = Z.to_nat n.
Proof. unfold range. by rewrite length_fmap, length_seq. Qed.

Lemma sleeping_attempts_below (max_retries : Z) (i k : nat) :
  (Z.of_nat (i + k) ≤ max_retries)%Z →
  sleeping_attempts max_retries (Z.of_nat <$> seq i k) = k.
Proof.
  revert i. induction k as [|k IH]; intros i Hle; [done|].
  unfold sleeping_attempts in *. cbn [seq fmap list_fmap List.filter].
  destruct (Z.ltb_spec (Z.of_nat i) max_retries); [|lia].
  cbn [length]. f_equal. apply IH. lia.
Qed.

(** Of the attempts [0 .. max_retries] all but the last are followed by a
    sleep. *)
Lemma sleeping_attempts_range (max_retries : Z) :
  sleeping_attempts max_retries (range (max_retries + 1)) = Z.to_nat max_retries.
Proof.
  unfold range. destruct (Z.le_gt_cases 0 max_retries) as [Hge|Hlt].
  - replace (Z.to_nat (max_retries + 1)) with (Z.to_nat max_retries + 1)%nat by lia.
    rewrite seq_app, fmap_app. unfold sleeping_attempts.
    rewrite List.filter_app, length_app.
    fold (sleeping_attempts max_retries (Z.of_nat <$> seq 0 (Z.to_nat max_retries))).
    rewrite sleeping_attempts_below by lia.
    cbn [seq fmap list_fmap List.filter].
    destruct (Z.ltb_spec (Z.of_nat (0 + Z.to_nat max_retries)) max_retries);
      [lia|]. cbn [length]. lia.
  - replace (Z.to_nat (max_retries + 1)) with 0%nat by lia.
    cbn. lia.
Qed.

Section RetryPolicy.

Variable py : PyBuiltins.
Variable key : option string.
Variable remote : nat → httpx.Request → httpx.outcome.

Lemma attempt_posts_counts (timeout : Q) (payload : json) (d : bool) :
  Forall (allowed_event key timeout payload) (attempt_posts key timeout payload d)
  ∧ (1 ≤ posts (attempt_posts key timeout payload d) ≤ 2)%nat
  ∧ sleeps (attempt_posts key timeout payload d) = 0%nat
  ∧ ∃ pre rq', attempt_posts key timeout payload d = pre ++ [Post rq'].
Proof.
  unfold attempt_posts. destruct d.
  - split.
    { apply Forall_cons. split; [by left|].
      apply Forall_cons. split; [right; by left|]. apply Forall_nil_2. }
    split; [unfold posts; cbn [List.filter is_post length]; lia|]. split; [done|]. by eexists [_], _.
  - split.
    { apply Forall_cons. split; [by left|]. apply Forall_nil_2. }
    split; [unfold posts; cbn [List.filter is_post length]; lia|]. split; [done|]. by eexists [], _.
Qed.

Lemma raise_last_error_raises (last_error : option exn) (tr : list event) :
  ∃ e, raise_last_error last_error tr = (Raise e, tr)
       ∧ isinstance_HTTPException e = true.
Proof.
  unfold raise_last_error, raise.
  destruct last_error as [[]|]; cbn; eauto.
Qed.

(** The loop over any list of attempts: what it adds to the trace. *)
Lemma hf_loop_shape (timeout : Q) (payload : json) (max_retries : Z)
    (attempts : list Z) :
  ∀ last_error tr,
  ∃ added,
    (hf_loop py key remote timeout payload max_retries attempts last_error tr).2
      = tr ++ added
    ∧ Forall (allowed_event key timeout payload) added
    ∧ (posts added ≤ 2 * length attempts)%nat
    ∧ (sleeps added ≤ sleeping_attempts max_retries attempts)%nat
    ∧ match (hf_loop py key remote timeout payload max_retries attempts
               last_error tr).1 with
      | Raise e =>
          isinstance_HTTPException e = true
          ∧ sleeps added = sleeping_attempts max_retries attempts
          ∧ (length attempts ≤ posts added)%nat
      | Ok _ => ∃ pre rq', added = pre ++ [Post rq']
      end.
Proof.
  induction attempts as [|attempt rest IH]; intros last_error tr.
  - cbn [hf_loop].
    destruct (raise_last_error_raises last_error tr) as (e & -> & He).
    exists []. cbn. rewrite app_nil_r. repeat split; done || lia.
  - rewrite hf_loop_cons.
    destruct (hf_attempt_posts py key remote timeout payload tr) as [r ->].
    set (d := insufficient_permissions _).
    destruct (attempt_posts_counts timeout payload d)
      as (Hall & Hposts & Hsleeps & Hlast).
    unfold sleeping_attempts. cbn [List.filter length].
    destruct r as [data|e].
    + exists (attempt_posts key timeout payload d). cbn [fst snd].
      repeat split; try done; try lia.
    + destruct (attempt <? max_retries)%Z.
      * destruct (IH (Some e) ((tr ++ attempt_posts key timeout payload d)
                               ++ [Sleep 0.5]))
          as (added & Hadd & Hall' & Hp & Hs & Hend).
        exists (attempt_posts key timeout payload d ++ [Sleep 0.5] ++ added).
        split; [by rewrite Hadd, <- !app_assoc|].
        split.
        { apply Forall_app. split; [done|]. apply Forall_app. split; [|done].
          apply Forall_cons. split; [right; by right|]. apply Forall_nil_2. }
        rewrite !posts_app, !sleeps_app, Hsleeps. cbn [length].
        change (posts [Sleep 0.5]) with 0%nat.
        change (sleeps [Sleep 0.5]) with 1%nat.
        unfold sleeping_attempts in *.
        split; [lia|]. split; [lia|].
        destruct (hf_loop _ _ _ _ _ _ _ _ _).1 as [data|e'].
        -- destruct Hend as (pre & rq' & ->).
           exists (attempt_posts key timeout payload d ++ [Sleep 0.5] ++ pre), rq'.
           by rewrite <- !app_assoc.
        -- destruct Hend as (He & Hs' & Hp'). repeat split; done || lia.
      * destruct (IH (Some e) (tr ++ attempt_posts key timeout payload d))
          as (added & Hadd & Hall' & Hp & Hs & Hend).
        exists (attempt_posts key timeout payload d ++ added).
        split; [by rewrite Hadd, <- !app_assoc|].
        split; [by apply Forall_app|].
        rewrite !posts_app, !sleeps_app, Hsleeps. cbn [length].
        unfold sleeping_attempts in *.
        split; [lia|]. split; [lia|].
        destruct (hf_loop _ _ _ _ _ _ _ _ _).1 as [data|e'].
        -- destruct Hend as (pre & rq' & ->).
           exists (attempt_posts key timeout payload d ++ pre), rq'.
           by rewrite <- !app_assoc.
        -- destruct Hend as (He & Hs' & Hp'). repeat split; done || lia.
Qed.

(** X1. For every [max_retries] and every service, [_call_hf_api] adds to the
    trace only its two requests and sleeps of 0.5: at most
    [2 * (max_retries + 1)] requests and [max_retries] sleeps. A call that
    returns ends at a request: nothing is sent and no time is slept
    after the answer that succeeded. A call that raises raises an
    HTTPException, after [max_retries + 1] attempts and exactly
    [max_retries] sleeps. *)
Theorem call_hf_api_is_bounded (text : string) (max_retries : Z) (timeout : Q)
    (tr : list event) :
  ∃ added,
    (_call_hf_api py key remote text max_retries timeout tr).2 = tr ++ added
    ∧ Forall (allowed_event key timeout (payload_of text)) added
    ∧ (posts added ≤ 2 * Z.to_nat (max_retries + 1))%nat
    ∧ (sleeps added ≤ Z.to_nat max_retries)%nat
    ∧ match (_call_hf_api py key remote text max_retries timeout tr).1 with
      | Raise e =>
          isinstance_HTTPException e = true
          ∧ sleeps added = Z.to_nat max_retries
          ∧ (Z.to_nat (max_retries + 1) ≤ posts added)%nat
      | Ok _ => ∃ pre rq', added = pre ++ [Post rq']
      end.
Proof.
  unfold _call_hf_api. cbv zeta.
  destruct (hf_loop_shape timeout (payload_of text) max_retries
              (range (max_retries + 1)) None tr) as (added & Hadd & Hall & Hp & Hs & Hend).
  rewrite range_length, sleeping_attempts_range in *.
  by exists added.
Qed.

(** X2. With a negative [max_retries] the loop body never runs: nothing is
    sent, and the call raises the 500 of "Unknown HF error". *)
Theorem call_hf_api_without_attempts (text : string) (max_retries : Z)
    (timeout : Q) (tr : list event) :
  (max_retries < 0)%Z →
  _call_hf_api py key remote text max_retries timeout tr
  = (Raise (HTTPException 500 "Unknown HF error"), tr).
Proof.
  intros Hneg. unfold _call_hf_api, range. cbv zeta.
  by replace (Z.to_nat (max_retries + 1)) with 0%nat by lia.
Qed.

End RetryPolicy.

(** ** A service that keeps failing *)

Lemma sleeps_attempts_trace (one : list event) (n : nat) :
  sleeps one = 0%nat → sleeps (attempts_trace one n) = n.
Proof.
  intros H. induction n as [|n IH]; [done|].
  cbn [attempts_trace]. rewrite sleeps_app, H.
  change (Sleep 0.5 :: attempts_trace one n)
    with ([Sleep 0.5] ++ attempts_trace one n).
  rewrite sleeps_app, IH. reflexivity.
Qed.

Lemma posts_attempts_trace (one : list event) (n : nat) :
  posts (attempts_trace one n) = (S n * posts one)%nat.
Proof.
  induction n as [|n IH]; [cbn [attempts_trace]; lia|].
  cbn [attempts_trace]. rewrite posts_app.
  change (Sleep 0.5 :: attempts_trace one n)
    with ([Sleep 0.5] ++ attempts_trace one n).
  rewrite posts_app, IH. change (posts [Sleep 0.5]) with 0%nat. lia.
Qed.

Section PersistentFailure.

Variable py : PyBuiltins.
Variable key : option string.
Variable remote : nat → httpx.Request → httpx.outcome.
(** The service answers by the request alone, the same at every time. *)
Variable service : httpx.Request → httpx.outcome.
Hypothesis stationary : ∀ n rq, remote n rq = service rq.

Lemma hf_attempt_stationary (timeout : Q) (payload : json) (tr : list event) :
  let d := insufficient_permissions
             (service (request timeout (headers_to_use key) payload)) in
  hf_attempt py key remote timeout payload tr =
  (Ok (verdict py
         (if d then service (request timeout base_headers payload)
          else service (request timeout (headers_to_use key) payload))),
   tr ++ attempt_posts key timeout payload d).
Proof using stationary.
  cbv zeta. rewrite hf_attempt_eq. cbv zeta. rewrite !stationary.
  unfold attempt_posts. by destruct (insufficient_permissions _).
Qed.

Lemma hf_loop_stationary (timeout : Q) (payload : json) (max_retries : Z)
    (e : exn) :
  let d := insufficient_permissions
             (service (request timeout (headers_to_use key) payload)) in
  verdict py (if d then service (request timeout base_headers payload)
              else service (request timeout (headers_to_use key) payload))
    = Failed e →
  ∀ k i last_error tr,
    Z.of_nat (i + k) = max_retries →
    hf_loop py key remote timeout payload max_retries
      (Z.of_nat <$> seq i (S k)) last_error tr
    = (Raise (surfaced e),
       tr ++ attempts_trace (attempt_posts key timeout payload d) k).
Proof using stationary.
  intros d Hv. induction k as [|k IH]; intros i last_error tr Hi.
  - cbn [seq fmap list_fmap]. rewrite hf_loop_cons, hf_attempt_stationary.
    fold d. rewrite Hv.
    destruct (Z.ltb_spec (Z.of_nat i) max_retries); [lia|].
    cbn [hf_loop raise_last_error attempts_trace]. unfold surfaced, raise.
    by destruct (isinstance_HTTPException e).
  - change (Z.of_nat <$> seq i (S (S k)))
      with (Z.of_nat i :: (Z.of_nat <$> seq (S i) (S k))).
    rewrite hf_loop_cons, hf_attempt_stationary. fold d. rewrite Hv.
    destruct (Z.ltb_spec (Z.of_nat i) max_retries); [|lia].
    rewrite (IH (S i)) by lia. cbn [attempts_trace].
    by rewrite <- !app_assoc.
Qed.

(** X3. Against a service that answers every attempt with the same failure,
    and for every [max_retries] that is not negative, the client makes
    [max_retries + 1] attempts with a sleep of 0.5 between one and the
    next, none after the last, and then raises the failure of the last
    attempt: an HTTPException as it is, any other exception as a 500 with
    its message. *)
Theorem call_hf_api_persistent_failure (text : string) (max_retries : Z)
    (timeout : Q) (tr : list event) (e : exn) :
  (0 ≤ max_retries)%Z →
  let rq := request timeout (headers_to_use key) (payload_of text) in
  let anon := request timeout base_headers (payload_of text) in
  let d := insufficient_permissions (service rq) in
  verdict py (if d then service anon else service rq) = Failed e →
  let added := attempts_trace (attempt_posts key timeout (payload_of text) d)
                 (Z.to_nat max_retries) in
  _call_hf_api py key remote text max_retries timeout tr
    = (Raise (surfaced e), tr ++ added)
  ∧ sleeps added = Z.to_nat max_retries
  ∧ posts added = ((Z.to_nat max_retries + 1) * if d then 2 else 1)%nat.
Proof using stationary.
  intros Hge rq anon d Hv added. split; [|split].
  - unfold _call_hf_api, range. cbv zeta.
    replace (Z.to_nat (max_retries + 1)) with (S (Z.to_nat max_retries)) by lia.
    apply (hf_loop_stationary timeout (payload_of text) max_retries e Hv).
    lia.
  - apply sleeps_attempts_trace. by destruct d.
  - unfold added. rewrite posts_attempts_trace.
    replace (S (Z.to_nat max_retries)) with (Z.to_nat max_retries + 1)%nat by lia.
    by destruct d.
Qed.

End PersistentFailure.

Lemma call_hf_api_persistent_failure_witness :
  _call_hf_api py_plain None service_loading "resume" 4 6 []
  = (Raise (surfaced (HTTPException 503 "Model is loading, please retry shortly.")),
     [] ++ attempts_trace (attempt_posts None 6 (payload_of "resume") false) 4).
Proof.
  refine (proj1 (call_hf_api_persistent_failure py_plain None service_loading
                   (service_loading 0%nat) _ "resume" 4 6 []
                   (HTTPException 503 "Model is loading, please retry shortly.")
                   _ _)).
  - reflexivity.
  - lia.
  - reflexivity.
Defined.

Lemma call_hf_api_without_attempts_witness :
  _call_hf_api py_plain None service_example "resume" (-1) 6 []
  = (Raise (HTTPException 500 "Unknown HF error"), []).
Proof.
  apply (call_hf_api_without_attempts py_plain None service_example "resume" (-1) 6 []).
  lia.
Defined.

(** ** What the controller sends *)

Lemma substring_length (n : nat) (s : string) :
  String.length (String.substring 0 n s) = Nat.min n (String.length s).
Proof.
  revert s. induction n as [|n IH]; intros [|c s]; cbn; try done.
  by rewrite IH.
Qed.

Lemma substring_prefix (n : nat) (s : string) :
  String.prefix (String.substring 0 n s) s = true.
Proof.
  revert s. induction n as [|n IH]; intros [|c s]; cbn; try done.
  destruct (ascii_dec c c); [apply IH|done].
Qed.

Lemma prefix_refl (s : string) : String.prefix s s = true.
Proof. induction s as [|c s IH]; cbn; [done|]. by destruct (ascii_dec c c). Qed.

(** The text sent to the service is a non-empty beginning of the stripped
    input, of at most 2000 characters. *)
Lemma prepare_bounds (inputs : string) :
  PyStr.strip inputs ≠ "" →
  (1 ≤ String.length (prepare inputs) ≤ 2000)%nat
  ∧ String.prefix (prepare inputs) (PyStr.strip inputs) = true.
Proof.
  intros Hne. unfold prepare, PyStr.slice_to. cbv zeta.
  destruct (Nat.ltb_spec 2000 (String.length (PyStr.strip inputs))) as [Hlt|Hge].
  - rewrite substring_length. split; [lia|apply substring_prefix].
  - split; [|apply prefix_refl].
    destruct (PyStr.strip inputs); [done|]. cbn [String.length] in *. lia.
Qed.

Section Requests.

Variable py : PyBuiltins.
Variable key : option string.
Variable remote : nat → httpx.Request → httpx.outcome.

(** The controller itself adds nothing to the trace of the remote call. *)
Lemma predict_role_trace (inputs : string) (tr : list event) :
  PyStr.strip inputs ≠ "" →
  (predict_role py key remote inputs tr).2
  = (_call_hf_api py key remote (prepare inputs) 2 6 tr).2.
Proof.
  intros Hne.
  destruct (_call_hf_api py key remote (prepare inputs) 2 6 tr)
    as [[[|p ps]|e] tr'] eqn:Hcall.
  - rewrite (predict_role_fallback py key remote inputs tr tr'); [done|done|by right].
  - by rewrite (predict_role_predictions py key remote inputs tr tr' p ps Hne Hcall).
  - rewrite (predict_role_fallback py key remote inputs tr tr'); [done|done|].
    left. by exists e.
Qed.

(** X4. A blank input costs no request. For any other input, and whatever
    the service does, [predict_role] sends between one and six requests
    and sleeps at most twice, 0.5 each time; every request goes to the
    model URL with timeout 6 and carries the same payload, the stripped
    input cut at 2000 characters, which is never empty. *)
Theorem predict_role_requests_are_bounded (inputs : string) (tr : list event) :
  if String.eqb (PyStr.strip inputs) "" then
    (predict_role py key remote inputs tr).2 = tr
  else
    ∃ added,
      (predict_role py key remote inputs tr).2 = tr ++ added
      ∧ Forall (allowed_event key 6 (payload_of (prepare inputs))) added
      ∧ (1 ≤ posts added ≤ 6)%nat
      ∧ (sleeps added ≤ 2)%nat
      ∧ (1 ≤ String.length (prepare inputs) ≤ 2000)%nat
      ∧ String.prefix (prepare inputs) (PyStr.strip inputs) = true.
Proof.
  destruct (String.eqb_spec (PyStr.strip inputs) "") as [Hblank|Hne].
  - by rewrite predict_role_empty.
  - destruct (call_hf_api_is_bounded py key remote (prepare inputs) 2 6 tr)
      as (added & Hadd & Hall & Hp & Hs & Hend).
    exists added. rewrite (predict_role_trace inputs tr Hne).
    split; [done|]. split; [done|].
    destruct (prepare_bounds inputs Hne) as [Hlen Hpre].
    split; [|split; [|split]]; [|exact Hs|exact Hlen|exact Hpre].
    split; [|exact Hp].
    destruct (_call_hf_api _ _ _ _ _ _ _).1 as [data|e].
    + destruct Hend as (pre & rq' & ->). rewrite posts_snoc_post. lia.
    + destruct Hend as (_ & _ & Hmin). change (Z.to_nat (2 + 1)) with 3%nat in Hmin. lia.
Qed.

End Requests.

(** ** Roles *)



(** No role of the table is dropped by the entry-level filter. *)
Lemma mapper_roles_pass_filter (label : string) :
  filter (λ r, PyStr.contains "Fresher" r || PyStr.contains "Intern" r)
    (_map_label_to_roles label)
  = _map_label_to_roles label.
Proof.
  unfold _map_label_to_roles. cbv zeta.
  destruct (ROLE_MAP !! _) as [roles|] eqn:Hk; cbn [default from_option id]; [|done].
  apply elem_of_list_to_map_2 in Hk. unfold ROLE_MAP_items in Hk.
  rewrite !elem_of_cons, elem_of_nil in Hk.
  destruct Hk as [Hk|[Hk|[Hk|[Hk|[Hk|[Hk|[Hk|[]]]]]]]];
    injection Hk as _ ->; reflexivity.
Qed.

Lemma mapper_empty_iff (label : string) :
  _map_label_to_roles label = []
  ↔ PyStr.strip (PyStr.lower label) ∉ ROLE_MAP_items.*1.
Proof.
  unfold _map_label_to_roles. cbv zeta. split.
  - intros Hempty Hin. apply list_elem_of_fmap in Hin as [[k roles] [Hk Hin]].
    cbn [fst] in Hk. rewrite Hk in Hempty. unfold ROLE_MAP in Hempty.
    rewrite (elem_of_list_to_map_1 _ _ _ ROLE_MAP_keys_NoDup Hin) in Hempty.
    cbn [default from_option id] in Hempty. subst roles.
    unfold ROLE_MAP_items in Hin. rewrite !elem_of_cons, elem_of_nil in Hin.
    destruct Hin as [H|[H|[H|[H|[H|[H|[H|[]]]]]]]]; discriminate H.
  - intros Hnot. unfold ROLE_MAP.
    by rewrite (not_elem_of_list_to_map_1 _ _ Hnot).
Qed.

Section ResponseRoles.

Variable py : PyBuiltins.
Variable key : option string.
Variable remote : nat → httpx.Request → httpx.outcome.

Lemma predict_role_ok_respond (inputs : string) (tr : list event)
    (r : PredictRoleResponse) :
  (predict_role py key remote inputs tr).1 = Ok r →
  ∃ label score, r = respond label score.
Proof.
  destruct (String.eqb_spec (PyStr.strip inputs) "") as [Hblank|Hne].
  { by rewrite predict_role_empty. }
  destruct (_call_hf_api py key remote (prepare inputs) 2 6 tr)
    as [[[|p ps]|e] tr'] eqn:Hcall.
  - rewrite (predict_role_fallback py key remote inputs tr tr'); [|done|by right].
    intros [= <-]. eauto.
  - rewrite (predict_role_predictions py key remote inputs tr tr' p ps Hne Hcall).
    cbn [fst].
    destruct (max_by_score py (p :: ps)) as [top|]; [|done].
    destruct (py_get top "label" _); [|done].
    destruct (py_get top "score" _) as [sc|]; [|done].
    destruct (py_float py sc); [|done].
    intros [= <-]. eauto.
  - rewrite (predict_role_fallback py key remote inputs tr tr'); [|done|].
    + intros [= <-]. eauto.
    + left. by exists e.
Qed.

(** X6. In every response of [predict_role], from the model or from the
    heuristic, the recommended roles are exactly the table's entry for the
    predicted label (lowercased and stripped); they are empty exactly when
    the label is not in the table, which is a response, not an error. *)
Theorem predict_role_roles_from_table (inputs : string) (tr : list event)
    (r : PredictRoleResponse) :
  (predict_role py key remote inputs tr).1 = Ok r →
  recommended_roles r = _map_label_to_roles (predicted_label r)
  ∧ (recommended_roles r = []
     ↔ PyStr.strip (PyStr.lower (predicted_label r)) ∉ ROLE_MAP_items.*1).
Proof.
  intros (label & score & ->)%predict_role_ok_respond.
  unfold respond. cbv zeta. cbn [recommended_roles predicted_label].
  rewrite mapper_roles_pass_filter. split; [done|apply mapper_empty_iff].
Qed.

End ResponseRoles.

Lemma predict_role_roles_from_table_witness :
  recommended_roles
    {| predicted_label := "organization";
       recommended_roles := ["Business Analyst - Fresher"];
       confidence := 0.9 |}
  = _map_label_to_roles "organization".
Proof.
  refine (proj1 (predict_role_roles_from_table py_plain None service_example
                   "resume" [] _ _)).
  by vm_compute.
Defined.

(** ** Predictions with missing keys *)



Section MissingKeys.

Variable py : PyBuiltins.
Variable key : option string.
Variable remote : nat → httpx.Request → httpx.outcome.


End MissingKeys.

(** A service that answers with records that are not complete. *)
Example incomplete_records :
  (predict_role py_plain None
     (λ _ _, answer 200 ""
               (Some (JArr [JObj {[ "label" := JStr "analysis" ]};
                            JObj {[ "score" := JNum 0.3 ]};
                            JObj {[ "label" := JStr "learning"; "score" := JNum 0.3 ]}])))
     "resume" []).1
  = Ok {| predicted_label := "unknown"; recommended_roles := []; confidence := 0.3 |}.
Proof. by vm_compute. Qed.


(** ** The aggregator, further *)

Set Warnings "-clear-no-such-hyp".

Section AggregatorFurther.

Context {UploadFile : Type}.
Variable process_resume_file : UploadFile → result json.
Variable extract_username_from_input : string → result (option string).
Variable get_github_repo_counts : string → string → result (gmap string json).
Variable get_pr_metrics : string → string → result (gmap string json).
Variable GITHUB_TOKEN_ENV : option string.
Variable analyze_leetcode : string → result json.
Variable analyze_codechef : string → result json.

Local Abbreviation github_section'' :=
  (github_section extract_username_from_input get_github_repo_counts get_pr_metrics
     GITHUB_TOKEN_ENV).
Local Abbreviation analyze_all'' :=
  (analyze_all process_resume_file extract_username_from_input
     get_github_repo_counts get_pr_metrics GITHUB_TOKEN_ENV
     analyze_leetcode analyze_codechef).

(** The route behind the GitHub block, in closed form. *)
Lemma analyze_all_after_github (file : UploadFile)
    (github leetcode codechef token : option string) (tr t1 : list call)
    (resume_result : json) (r1 : gmap string json) :
  process_resume_file file = Ok resume_result →
  is_error_dict resume_result = false →
  github_section'' github token (<[ "resume" := resume_result ]> ∅)
    (tr ++ [CallProcessResumeFile]) = (Ok r1, t1) →
  analyze_all'' file github leetcode codechef token tr =
  (Ok (Returned
         ((if truthy_str codechef
           then recorded "codechef" (analyze_codechef (default "" codechef))
           else id)
            ((if truthy_str leetcode
              then recorded "leetcode" (analyze_leetcode (default "" leetcode))
              else id) r1))),
   t1 ++ later_calls leetcode codechef).
Proof.
  intros Hres Herr Hgh. unfold analyze_all, later_calls. cbv zeta.
  unfold mbind at 1, M_bind at 1, bind at 1. rewrite invoke_eq, Hres, Herr.
  unfold mbind at 1, M_bind at 1, bind at 1. rewrite Hgh.
  unfold mbind at 1, M_bind at 1, bind at 1. rewrite leetcode_section_eq.
  unfold mbind at 1, M_bind at 1, bind at 1.
  destruct (truthy_str leetcode); rewrite codechef_section_eq;
    destruct (truthy_str codechef); unfold mret, M_ret, ret, id.
  all: by rewrite <- ?app_assoc, ?app_nil_r.
Qed.

(** The GitHub block calls its helpers in the order username, repository
    counts, pull-request metrics, and stops at the first that fails. *)
Lemma github_section_calls (github token : option string)
    (results : gmap string json) (tr : list call) :
  ∃ r1 n username tok,
    github_section'' github token results tr =
      (Ok r1,
       tr ++ (if truthy_str github
              then take n [CallExtractUsername (default "" github);
                           CallGithubRepoCounts username tok;
                           CallPrMetrics username tok]
              else []))
    ∧ (1 ≤ n ≤ 3)%nat.
Proof.
  unfold github_section.
  destruct (truthy_str github).
  2: { exists results, 1%nat, "", "". split; [by rewrite app_nil_r|lia]. }
  unfold try_except, github_try, mbind, M_bind, bind, mret, M_ret, ret.
  rewrite invoke_eq.
  destruct (extract_username_from_input _) as [username|e].
  2: { eexists _, 1%nat, "", "". split; [done|lia]. }
  destruct (truthy_str username); cbn [negb].
  2: { eexists _, 1%nat, "", "". split; [done|lia]. }
  destruct (truthy_str (or_str token GITHUB_TOKEN_ENV)); cbn [negb].
  2: { eexists _, 1%nat, "", "". split; [done|lia]. }
  cbv zeta. rewrite invoke_eq.
  destruct (get_github_repo_counts _ _) as [gql|e].
  2: { eexists _, 2%nat, _, _. rewrite <- app_assoc. split; [done|lia]. }
  destruct (key_in "error_graphql" gql).
  { eexists _, 2%nat, _, _. rewrite <- app_assoc. split; [done|lia]. }
  rewrite invoke_eq.
  destruct (get_pr_metrics _ _) as [pr|e].
  2: { eexists _, 3%nat, _, _. rewrite <- !app_assoc. split; [done|lia]. }
  destruct (key_in "error_pr_api" pr);
    eexists _, 3%nat, _, _; rewrite <- !app_assoc; (split; [done|lia]).
Qed.

(** X13. When the resume was processed, the adapters are called in one fixed
    order, each at most once: the resume helper; for a GitHub identifier
    the username helper, then the repository counts, then the pull-request
    metrics, as far as the block gets; then the LeetCode analyzer and the
    CodeChef analyzer for the identifiers that are supplied. *)
Theorem adapters_called_in_order (file : UploadFile)
    (github leetcode codechef token : option string) (tr : list call)
    (resume_result : json) :
  process_resume_file file = Ok resume_result →
  is_error_dict resume_result = false →
  ∃ results n username tok,
    (1 ≤ n ≤ 3)%nat
    ∧ analyze_all'' file github leetcode codechef token tr =
        (Ok (Returned results),
         tr ++ [CallProcessResumeFile]
            ++ (if truthy_str github
                then take n [CallExtractUsername (default "" github);
                             CallGithubRepoCounts username tok;
                             CallPrMetrics username tok]
                else [])
            ++ later_calls leetcode codechef).
Proof.
  intros Hres Herr.
  destruct (github_section_calls github token (<[ "resume" := resume_result ]> ∅)
              (tr ++ [CallProcessResumeFile]))
    as (r1 & n & username & tok & Hgh & Hn).
  eexists _, n, username, tok. split; [exact Hn|].
  rewrite (analyze_all_after_github file github leetcode codechef token tr _
             resume_result r1 Hres Herr Hgh).
  by rewrite <- !app_assoc.
Qed.

Lemma section_step_keys (name : string) (supplied : bool) (c : call)
    (r r' : gmap string json) (t t' : list call) :
  section_step name supplied c r r' t t' →
  dom r ⊆ dom r'
  ∧ dom r' ⊆ dom r ∪ {[ name; name +:+ "_error" ]}
  ∧ (size r' ≤ S (size r))%nat.
Proof.
  unfold section_step. destruct supplied.
  - intros [_ [[v ->]|[v ->]]]; rewrite dom_insert_L, map_size_insert;
      (split; [set_solver|]); (split; [set_solver|]);
      destruct (r !! _); cbn; lia.
  - intros [-> _]. split; [done|]. split; [set_solver|lia].
Qed.

(** X14. The result of the route has the resume under [resume] and, beside it,
    keys of the three optional sources only, at most one for each source:
    never more than four keys. *)
Theorem results_keys_are_bounded (file : UploadFile)
    (github leetcode codechef token : option string) (tr : list call)
    (resume_result : json) :
  process_resume_file file = Ok resume_result →
  is_error_dict resume_result = false →
  ∃ results,
    (analyze_all'' file github leetcode codechef token tr).1
      = Ok (Returned results)
    ∧ "resume" ∈ dom results
    ∧ dom results ⊆ result_keys
    ∧ (size results ≤ 4)%nat.
Proof.
  intros Hres Herr.
  destruct (analyze_all_resume_ok process_resume_file extract_username_from_input
              get_github_repo_counts get_pr_metrics GITHUB_TOKEN_ENV
              analyze_leetcode analyze_codechef file github leetcode codechef
              token tr resume_result Hres Herr)
    as (r1 & t1 & r2 & t2 & r3 & t3 & Hrun & H1 & H2 & H3).
  exists r3. rewrite Hrun. split; [done|].
  apply section_step_keys in H1 as (Hm1 & Hd1 & Hs1).
  apply section_step_keys in H2 as (Hm2 & Hd2 & Hs2).
  apply section_step_keys in H3 as (Hm3 & Hd3 & Hs3).
  rewrite dom_insert_L, dom_empty_L in Hd1, Hm1.
  rewrite map_size_insert, lookup_empty, map_size_empty in Hs1.
  cbn [String.append] in *. unfold result_keys.
  split; [apply Hm3, Hm2, Hm1; set_unfold; tauto|]. split; [|lia].
  intros k Hk. apply Hd3 in Hk. apply elem_of_union in Hk as [Hk|Hk].
  - apply Hd2 in Hk. apply elem_of_union in Hk as [Hk|Hk].
    + apply Hd1 in Hk. set_unfold. tauto.
    + set_unfold. tauto.
  - set_unfold. tauto.
Qed.

(** The GitHub block without a username, and without a token. *)
Lemma github_section_no_username (github : string) (token username : option string)
    (results : gmap string json) (tr : list call) :
  github ≠ "" →
  extract_username_from_input github = Ok username →
  truthy_str username = false →
  github_section'' (Some github) token results tr =
  (Ok (<[ "github_error" := JStr "Could not parse GitHub username from input" ]>
         results),
   tr ++ [CallExtractUsername github]).
Proof.
  intros Hg%String.eqb_neq Hu Hfalsy.
  unfold github_section, github_try. cbn [truthy_str from_option id].
  rewrite Hg. cbn [negb].
  unfold try_except, mbind, M_bind, bind, mret, M_ret, ret.
  by rewrite invoke_eq, Hu, Hfalsy.
Qed.

Lemma github_section_no_token (github username : string) (token : option string)
    (results : gmap string json) (tr : list call) :
  github ≠ "" →
  extract_username_from_input github = Ok (Some username) →
  username ≠ "" →
  truthy_str (or_str token GITHUB_TOKEN_ENV) = false →
  github_section'' (Some github) token results tr =
  (Ok (<[ "github_error" :=
            JStr "GitHub token missing. Pass ?token=... or set GITHUB_TOKEN env variable" ]>
         results),
   tr ++ [CallExtractUsername github]).
Proof.
  intros Hg%String.eqb_neq Hu Hune%String.eqb_neq Hfalsy.
  unfold github_section, github_try. cbn [truthy_str from_option id].
  rewrite Hg. cbn [negb].
  unfold try_except, mbind, M_bind, bind, mret, M_ret, ret.
  rewrite invoke_eq, Hu. cbn [truthy_str from_option id]. rewrite Hune. cbn [negb].
  by rewrite Hfalsy.
Qed.

Lemma later_results_keep_github (leetcode codechef : option string)
    (r1 : gmap string json) (k : string) :
  k = "github" ∨ k = "github_error" →
  ((if truthy_str codechef
    then recorded "codechef" (analyze_codechef (default "" codechef))
    else id)
     ((if truthy_str leetcode
       then recorded "leetcode" (analyze_leetcode (default "" leetcode))
       else id) r1)) !! k = r1 !! k.
Proof.
  intros [-> | ->]; destruct (truthy_str codechef), (truthy_str leetcode);
    unfold id; by rewrite ?recorded_lookup_ne by done.
Qed.

Lemma later_calls_no_github_helper (leetcode codechef : option string) :
  forallb (λ c, negb (is_github_helper_call c)) (later_calls leetcode codechef)
  = true.
Proof.
  unfold later_calls. by destruct (truthy_str leetcode), (truthy_str codechef).
Qed.

(** X15. GitHub needs a username and a token. When the username helper finds
    none, or when neither the request nor the environment has a token, the
    source is recorded as failed with the message that says so and neither
    metrics helper is called. Otherwise the token of the request, when it is
    not empty, is the one both helpers are called with, and the token of
    the environment only when the request has none. *)
Theorem github_needs_username_and_token (file : UploadFile) (github : string)
    (leetcode codechef token username : option string) (tr : list call)
    (resume_result : json) :
  process_resume_file file = Ok resume_result →
  is_error_dict resume_result = false →
  github ≠ "" →
  extract_username_from_input github = Ok username →
  ∃ results calls,
    analyze_all'' file (Some github) leetcode codechef token tr
      = (Ok (Returned results), tr ++ calls)
    ∧ (truthy_str username = false →
         results !! "github_error"
           = Some (JStr "Could not parse GitHub username from input")
         ∧ results !! "github" = None
         ∧ forallb (λ c, negb (is_github_helper_call c)) calls = true)
    ∧ (truthy_str username = true →
       truthy_str token = false → truthy_str GITHUB_TOKEN_ENV = false →
         results !! "github_error"
           = Some (JStr "GitHub token missing. Pass ?token=... or set GITHUB_TOKEN env variable")
         ∧ results !! "github" = None
         ∧ forallb (λ c, negb (is_github_helper_call c)) calls = true)
    ∧ (truthy_str username = true →
       truthy_str token = true ∨ truthy_str GITHUB_TOKEN_ENV = true →
         CallGithubRepoCounts (default "" username)
           (default "" (if truthy_str token then token else GITHUB_TOKEN_ENV))
         ∈ calls).
Proof.
  intros Hres Herr Hg Hu.
  destruct (truthy_str username) eqn:Hname.
  - destruct username as [username|]; [|done].
    assert (Hune : username ≠ "").
    { intros ->. done. }
    destruct (truthy_str (or_str token GITHUB_TOKEN_ENV)) eqn:Htok.
    + destruct (or_str token GITHUB_TOKEN_ENV) as [tok|] eqn:Hor; [|done].
      assert (Htne : tok ≠ "") by (by intros ->).
      pose proof (github_section_eq extract_username_from_input
                    get_github_repo_counts get_pr_metrics GITHUB_TOKEN_ENV
                    github username tok token (<[ "resume" := resume_result ]> ∅)
                    (tr ++ [CallProcessResumeFile]) Hg Hu Hune Hor Htne) as Hgh.
      cbv zeta in Hgh.
      assert (∃ r1 rest,
                github_section'' (Some github) token
                  (<[ "resume" := resume_result ]> ∅) (tr ++ [CallProcessResumeFile])
                = (Ok r1, (tr ++ [CallProcessResumeFile])
                          ++ [CallExtractUsername github;
                              CallGithubRepoCounts username tok] ++ rest))
        as (r1 & rest & Hrun).
      { rewrite Hgh.
        destruct (get_github_repo_counts username tok) as [gql|];
          [|eexists _, []; by rewrite app_nil_r].
        destruct (gql !! "error_graphql");
          [eexists _, []; by rewrite app_nil_r|].
        destruct (get_pr_metrics username tok) as [pr|];
          [|by eexists _, [_]].
        destruct (pr !! "error_pr_api"); by eexists _, [_]. }
      eexists _, _. split.
      { rewrite (analyze_all_after_github file (Some github) leetcode codechef
                   token tr _ resume_result r1 Hres Herr Hrun).
        by rewrite <- !app_assoc. }
      split; [done|]. split.
      { intros _ Ht He. unfold or_str in Hor. rewrite Ht in Hor.
        rewrite Hor in He. congruence. }
      intros _ _. cbn [from_option id].
      replace (default "" (if truthy_str token then token else GITHUB_TOKEN_ENV))
        with tok by (unfold or_str in Hor; by rewrite Hor).
      rewrite !elem_of_app, !elem_of_cons. tauto.
    + pose proof (github_section_no_token github username token
                    (<[ "resume" := resume_result ]> ∅)
                    (tr ++ [CallProcessResumeFile]) Hg Hu Hune Htok) as Hrun.
      eexists _, _. split.
      { rewrite (analyze_all_after_github file (Some github) leetcode codechef
                   token tr _ resume_result _ Hres Herr Hrun).
        by rewrite <- !app_assoc. }
      split; [done|]. split.
      * intros _ _ _.
        rewrite !later_results_keep_github by tauto.
        split; [by simplify_map_eq|]. split; [by simplify_map_eq|].
        cbn [app forallb is_github_helper_call negb andb].
        apply later_calls_no_github_helper.
      * intros _ [Ht|He]; unfold or_str in Htok.
        -- rewrite Ht in Htok. congruence.
        -- destruct (truthy_str token) eqn:Ht; congruence.
  - pose proof (github_section_no_username github token username
                  (<[ "resume" := resume_result ]> ∅)
                  (tr ++ [CallProcessResumeFile]) Hg Hu Hname) as Hrun.
    eexists _, _. split.
    { rewrite (analyze_all_after_github file (Some github) leetcode codechef
                 token tr _ resume_result _ Hres Herr Hrun).
      by rewrite <- !app_assoc. }
    split; [|split; done].
    intros _. rewrite !later_results_keep_github by tauto.
    split; [by simplify_map_eq|]. split; [by simplify_map_eq|].
    cbn [app forallb is_github_helper_call negb andb].
    apply later_calls_no_github_helper.
Qed.

(** X16. When both sub-calls succeed, the response has [github] and no
    [github_error]: the username, and under [github_metrics] the union of
    the two results, in which a key of the pull-request metrics takes the
    place of the same key of the repository counts. *)
Theorem github_success_merges (file : UploadFile) (github username tok : string)
    (leetcode codechef token : option string) (tr : list call)
    (resume_result : json) (gql pr : gmap string json) :
  process_resume_file file = Ok resume_result →
  is_error_dict resume_result = false →
  github ≠ "" →
  extract_username_from_input github = Ok (Some username) →
  username ≠ "" →
  or_str token GITHUB_TOKEN_ENV = Some tok →
  tok ≠ "" →
  get_github_repo_counts username tok = Ok gql →
  gql !! "error_graphql" = None →
  get_pr_metrics username tok = Ok pr →
  pr !! "error_pr_api" = None →
  ∃ results combined,
    (analyze_all'' file (Some github) leetcode codechef token tr).1
      = Ok (Returned results)
    ∧ results !! "github"
      = Some (JObj {[ "username" := JStr username;
                      "github_metrics" := JObj combined ]})
    ∧ results !! "github_error" = None
    ∧ (∀ k v, pr !! k = Some v → combined !! k = Some v)
    ∧ (∀ k, pr !! k = None → combined !! k = gql !! k).
Proof.
  intros Hres Herr Hg Hu Hune Ht Htne Hgql Hnoerr Hpr Hnoerr2.
  pose proof (github_section_eq extract_username_from_input
                get_github_repo_counts get_pr_metrics GITHUB_TOKEN_ENV
                github username tok token (<[ "resume" := resume_result ]> ∅)
                (tr ++ [CallProcessResumeFile]) Hg Hu Hune Ht Htne) as Hgh.
  cbv zeta in Hgh. rewrite Hgql, Hnoerr, Hpr, Hnoerr2 in Hgh.
  eexists _, (pr ∪ gql).
  rewrite (analyze_all_after_github file (Some github) leetcode codechef
             token tr _ resume_result _ Hres Herr Hgh).
  cbn [fst]. split; [done|].
  rewrite !later_results_keep_github by tauto.
  split; [by simplify_map_eq|]. split; [by simplify_map_eq|].
  split.
  - intros k v Hk. by apply lookup_union_Some_l.
  - intros k Hk. by apply lookup_union_r.
Qed.

End AggregatorFurther.

(** ** Concrete runs *)

Lemma normalize_guidance_keeps_typed_values_witness :
  ∃ r,
    normalize_guidance
      (JObj {[ "technical_skills" := JArr [JStr "python"];
               "learning_paths" := JStr "none";
               "notes" := JNum 1 ]}) = Ok r
    ∧ r !! "technical_skills" = Some (JArr [JStr "python"])
    ∧ r !! "learning_paths" = Some (JArr [])
    ∧ r !! "notes" = None.
Proof.
  destruct (normalize_guidance_keeps_typed_values
              {[ "technical_skills" := JArr [JStr "python"];
                 "learning_paths" := JStr "none";
                 "notes" := JNum 1 ]})
    as (r & Hr & Hl & _ & Hn & _).
  exists r. split; [exact Hr|]. split; [|split].
  - rewrite (Hl "technical_skills"); [by vm_compute|].
    unfold guidance_list_keys. rewrite !elem_of_cons. tauto.
  - rewrite (Hl "learning_paths"); [by vm_compute|].
    unfold guidance_list_keys. rewrite !elem_of_cons. tauto.
  - apply Hn; [|discriminate].
    unfold guidance_list_keys. rewrite !not_elem_of_cons, elem_of_nil.
    repeat split; discriminate || tauto.
Defined.

Lemma guidance_failures_are_payloads_witness :
  (generate_guidance
     (Some (λ _, Raise (PyException "RateLimitError" "rate limit reached")))
     (λ _, None) (λ _, "prompt") (JObj {[ "skills" := JArr [] ]}) []).1
  = Ok (JObj {[ "error" := JStr "Guidance LLM call failed: rate limit reached" ]}).
Proof.
  apply (proj1 (guidance_failures_are_payloads (λ _, None) (λ _, "prompt")
                  (λ _, Raise (PyException "RateLimitError" "rate limit reached"))
                  (JObj {[ "skills" := JArr [] ]}) [])
           (PyException "RateLimitError" "rate limit reached")).
  reflexivity.
Defined.

(** An answer in a Markdown fence is parsed without it. *)
Example fenced_answer_is_unwrapped :
  clean_content "  ```json
{}
```
" = "{}".
Proof. by vm_compute. Qed.

Lemma adapters_called_in_order_witness :
  ∃ results n username tok,
    (1 ≤ n ≤ 3)%nat
    ∧ analyze_all resume_parsed username_as_given repo_counts_fine
        pr_metrics_limited None leetcode_unreachable codechef_fine
        "resume.pdf" (Some "octocat") None (Some "cc_user") (Some "ghp_token") []
      = (Ok (Returned results),
         [] ++ [CallProcessResumeFile]
            ++ take n [CallExtractUsername "octocat";
                       CallGithubRepoCounts username tok;
                       CallPrMetrics username tok]
            ++ later_calls None (Some "cc_user")).
Proof.
  apply (adapters_called_in_order resume_parsed username_as_given
           repo_counts_fine pr_metrics_limited None leetcode_unreachable
           codechef_fine "resume.pdf" (Some "octocat") None (Some "cc_user")
           (Some "ghp_token") []
           (JObj {[ "skills" := JArr [JStr "python"; JStr "sql"] ]})).
  - reflexivity.
  - by vm_compute.
Defined.

Lemma results_keys_are_bounded_witness :
  ∃ results,
    (analyze_all resume_parsed username_as_given repo_counts_fine
       pr_metrics_limited None leetcode_unreachable codechef_fine
       "resume.pdf" (Some "octocat") (Some "lc_user") (Some "cc_user") None []).1
    = Ok (Returned results)
    ∧ "resume" ∈ dom results
    ∧ dom results ⊆ result_keys
    ∧ (size results ≤ 4)%nat.
Proof.
  apply (results_keys_are_bounded resume_parsed username_as_given
           repo_counts_fine pr_metrics_limited None leetcode_unreachable
           codechef_fine "resume.pdf" (Some "octocat") (Some "lc_user")
           (Some "cc_user") None []
           (JObj {[ "skills" := JArr [JStr "python"; JStr "sql"] ]})).
  - reflexivity.
  - by vm_compute.
Defined.

Lemma github_needs_username_and_token_witness :
  ∃ results calls,
    analyze_all resume_parsed username_as_given repo_counts_fine
      pr_metrics_limited None leetcode_unreachable codechef_fine
      "resume.pdf" (Some "octocat") None None None []
    = (Ok (Returned results), [] ++ calls)
    ∧ results !! "github_error"
      = Some (JStr "GitHub token missing. Pass ?token=... or set GITHUB_TOKEN env variable")
    ∧ results !! "github" = None
    ∧ forallb (λ c, negb (is_github_helper_call c)) calls = true.
Proof.
  destruct (github_needs_username_and_token resume_parsed username_as_given
              repo_counts_fine pr_metrics_limited None leetcode_unreachable
              codechef_fine "resume.pdf" "octocat" None None None (Some "octocat") []
              (JObj {[ "skills" := JArr [JStr "python"; JStr "sql"] ]}))
    as (results & calls & Hrun & _ & Hnotoken & _).
  - reflexivity.
  - by vm_compute.
  - discriminate.
  - reflexivity.
  - exists results, calls. split; [exact Hrun|].
    apply Hnotoken; reflexivity.
Defined.

Lemma github_success_merges_witness :
  ∃ results combined,
    (analyze_all resume_parsed username_as_given repo_counts_fine
       pr_metrics_fine (Some "env_token") leetcode_unreachable codechef_fine
       "resume.pdf" (Some "octocat") None None None []).1
    = Ok (Returned results)
    ∧ results !! "github"
      = Some (JObj {[ "username" := JStr "octocat";
                      "github_metrics" := JObj combined ]})
    ∧ results !! "github_error" = None
    ∧ combined !! "public_repos" = Some (JNum 13)
    ∧ combined !! "merged_prs" = Some (JNum 4).
Proof.
  destruct (github_success_merges resume_parsed username_as_given
              repo_counts_fine pr_metrics_fine (Some "env_token")
              leetcode_unreachable codechef_fine "resume.pdf" "octocat" "octocat"
              "env_token" None None None []
              (JObj {[ "skills" := JArr [JStr "python"; JStr "sql"] ]})
              {[ "public_repos" := JNum 12 ]}
              {[ "merged_prs" := JNum 4; "public_repos" := JNum 13 ]})
    as (results & combined & Hrun & Hgh & Herr & Hpr & _).
  - reflexivity.
  - by vm_compute.
  - discriminate.
  - reflexivity.
  - discriminate.
  - reflexivity.
  - discriminate.
  - reflexivity.
  - by vm_compute.
  - reflexivity.
  - by vm_compute.
  - exists results, combined. split; [exact Hrun|]. split; [exact Hgh|].
    split; [exact Herr|]. split; apply Hpr; by vm_compute.
Defined.
